(** * import_dir: prefixed imports of plain directories

    A shallow embedding of [import_dir/__init__.py]: the meta-path finder
    [ExternalPathFinder] and the source loader [PrefixedImportSourceLoader],
    with the properties of their resolution, path computation and import
    rewriting.

    Python strings are [string]; Python sets and dicts are stdpp's [gset] and
    [gmap]; exceptions are the [Raise] case of [Result]; the operating system
    is an oracle [FileSystem] that is only read, and the calls that matter
    ([os.listdir], writing a file) are recorded in a trace of [Event]s. *)

From Stdlib Require Import Ascii String Bool Arith Lia.
From stdpp Require Import base option list gmap strings.


(** ** Exceptions and results *)

Inductive Exception :=
| FileNotFoundError
| NotADirectoryError
| PermissionError
| ImportError
| ValueError
| SyntaxError.

Inductive Result (A : Type) :=
| Return (a : A)
| Raise (e : Exception).
Arguments Return {A} a.
Arguments Raise {A} e.

(** An exception raised by a step skips the rest: [x ← r; k] is stdpp's
    notation for this bind. *)
Global Instance Result_bind : MBind Result := fun A B k r =>
  match r with
  | Return a => k a
  | Raise e => Raise e
  end.

(** ** Python string operations used by the module *)

Module Py.

(** [s.startswith(p)] *)
Definition startswith (s p : string) : bool := String.prefix p s.

(** [s[n:]] *)
Fixpoint drop (n : nat) (s : string) : string :=
  match n, s with
  | O, _ => s
  | S _, EmptyString => EmptyString
  | S k, String _ s' => drop k s'
  end.

(** [s[:n]] for a non-negative [n] *)
Fixpoint take (n : nat) (s : string) : string :=
  match n, s with
  | O, _ => EmptyString
  | S _, EmptyString => EmptyString
  | S k, String a s' => String a (take k s')
  end.

(** [s.endswith(suf)] *)
Definition endswith (s suf : string) : bool :=
  (String.length suf <=? String.length s)
  && String.eqb (drop (String.length s - String.length suf) s) suf.

(** [s[:-3]]: drops the last three characters (all of them when there are
    fewer). *)
Definition drop_last3 (s : string) : string := take (String.length s - 3) s.

(** [s.split(c)] for a one-character separator: never empty. *)
Fixpoint split (c : ascii) (s : string) : list string :=
  match s with
  | EmptyString => [EmptyString]
  | String a s' =>
      if Ascii.eqb a c then EmptyString :: split c s'
      else match split c s' with
           | x :: xs => String a x :: xs
           | [] => [String a EmptyString]
           end
  end.

(** [sep.join(l)] *)
Fixpoint join (sep : string) (l : list string) : string :=
  match l with
  | [] => EmptyString
  | [x] => x
  | x :: xs => x +:+ sep +:+ join sep xs
  end.

(** [c in s] for a character *)
Fixpoint contains (c : ascii) (s : string) : bool :=
  match s with
  | EmptyString => false
  | String a s' => Ascii.eqb a c || contains c s'
  end.

End Py.

Definition dot : ascii := "."%char.
Definition slash : ascii := "/"%char.

(** ** [os.path] on POSIX *)

Module os_path.

(** One step of [posixpath.join]: an absolute component restarts the path,
    otherwise it is appended, with a separator unless the path is empty or
    already ends with one. *)
Definition join2 (path b : string) : string :=
  if Py.startswith b "/" then b
  else if String.eqb path "" || Py.endswith path "/" then path +:+ b
  else path +:+ "/" +:+ b.

(** [os.path.join(a, *p)] *)
Definition join (a : string) (p : list string) : string :=
  fold_left join2 p a.

(** [p[:p.rfind("/") + 1]] *)
Fixpoint head_of (p : string) : string :=
  match p with
  | EmptyString => EmptyString
  | String a p' =>
      if Ascii.eqb a slash || Py.contains slash p'
      then String a (head_of p')
      else EmptyString
  end.

(** [head == "/" * len(head)] *)
Fixpoint all_slashes (s : string) : bool :=
  match s with
  | EmptyString => true
  | String a s' => Ascii.eqb a slash && all_slashes s'
  end.

(** [head.rstrip("/")] *)
Fixpoint rstrip_slash (s : string) : string :=
  match s with
  | EmptyString => EmptyString
  | String a s' =>
      let r := rstrip_slash s' in
      if String.eqb r "" && Ascii.eqb a slash then EmptyString
      else String a r
  end.

(** [os.path.dirname(p)] *)
Definition dirname (p : string) : string :=
  let head := head_of p in
  if negb (String.eqb head "") && negb (all_slashes head)
  then rstrip_slash head
  else head.

End os_path.

(** ** The operating system

    The file system is an oracle: what each call of the module answers.  No
    coherence between the answers is assumed. *)

Record FileSystem := {
  os_listdir : string -> Result (list string);
  os_path_isdir : string -> bool;
  os_path_exists : string -> bool;
  open_read : string -> Result string;       (* open(path, "r").read() *)
  open_write : string -> Result unit;        (* whether open(path, "w").write(code) succeeds *)
}.

Inductive Event :=
| Listdir (path : string) (ok : bool)        (* a call of os.listdir and whether it returned *)
| Write (path : string) (data : string).     (* the file at path replaced by data *)

Definition is_ok {A} (r : Result A) : bool :=
  match r with Return _ => true | Raise _ => false end.

(** Control flow: [for x in l: s = body(s, x)], stopped by an exception. *)
Fixpoint for_each {S A} (body : S -> A -> Result S) (s : S) (l : list A) : Result S :=
  match l with
  | [] => Return s
  | x :: l' => s' ← body s x; for_each body s' l'
  end.

(** ** Python list operations on a list of references *)

Module PyList.

(** [l.index(r)]: position of the first occurrence, [ValueError] if none. *)
Fixpoint index (r : nat) (l : list nat) : Result nat :=
  match l with
  | [] => Raise ValueError
  | x :: l' => if Nat.eqb x r then Return 0 else i ← index r l'; Return (S i)
  end.

(** [l.insert(i, x)]: at the end when [i] is past it. *)
Definition insert (i : nat) (x : nat) (l : list nat) : list nat :=
  take i l ++ x :: drop i l.

(** [l.remove(r)]: removes the first occurrence, [ValueError] if none. *)
Fixpoint remove (r : nat) (l : list nat) : Result (list nat) :=
  match l with
  | [] => Raise ValueError
  | x :: l' => if Nat.eqb x r then Return l' else l'' ← remove r l'; Return (x :: l'')
  end.

End PyList.

(** ** The syntax tree

    RedBaron parses a source text into a tree that keeps every character;
    [find_all] walks the whole tree in document order and [dumps] writes it
    back.  A source file is therefore the sequence of its nodes in document
    order: the import statements, and between them the text of everything
    else.  The spacing inside an import statement is the canonical one, and
    relative imports (a module path with leading dots) are outside the
    model: a dotted path has a first name. *)

(** A dotted path [a.b.c], seen through its [DotProxyList]: the names
    without the dots.  [name0] is [value[0].value]. *)
Record DottedName := {
  name0 : string;
  names : list string;
}.

Definition len (v : DottedName) : nat := S (length (names v)).
Definition components (v : DottedName) : list string := name0 v :: names v.

(** An import target [a.b.c as t]; [target] is empty when there is no
    alias. *)
Record DottedAsNameNode := {
  value : DottedName;
  target : string;
}.

(** An imported name [x as y] of a from-import. *)
Record NameAsNameNode := {
  imported : string;
  imported_as : string;
}.

Inductive Node :=
| ImportNode (value : list DottedAsNameNode)
| FromImportNode (value : DottedName) (targets : list NameAsNameNode)
| OtherNode (text : string).

Definition RedBaron := list Node.

Definition dumps_dotted (v : DottedName) : string := Py.join "." (components v).

Definition dumps_as (s t : string) : string :=
  if String.eqb t "" then s else s +:+ " as " +:+ t.

Definition dumps_dotted_as (d : DottedAsNameNode) : string :=
  dumps_as (dumps_dotted (value d)) (target d).

Definition dumps_name_as (n : NameAsNameNode) : string :=
  dumps_as (imported n) (imported_as n).

Definition dumps_node (n : Node) : string :=
  match n with
  | ImportNode items => "import " +:+ Py.join ", " (map dumps_dotted_as items)
  | FromImportNode v targets =>
      "from " +:+ dumps_dotted v +:+ " import " +:+ Py.join ", " (map dumps_name_as targets)
  | OtherNode text => text
  end.

(** [ast.dumps()] *)
Definition dumps (ast : RedBaron) : string :=
  fold_right (fun n s => dumps_node n +:+ s) "" ast.

(** [dotted_as.value[0].value = s] *)
Definition set_name0 (v : DottedName) (s : string) : DottedName :=
  {| name0 := s; names := names v |}.

Definition set_value0 (d : DottedAsNameNode) (s : string) : DottedAsNameNode :=
  {| value := set_name0 (value d) s; target := target d |}.

(** The names of a dotted path written as [path]. *)
Definition dotted_of_string (path : string) : DottedName :=
  match Py.split dot path with
  | x :: xs => {| name0 := x; names := xs |}
  | [] => {| name0 := ""; names := [] |}
  end.

(** The node RedBaron builds from the text [path as t] given to
    [insert_after]. *)
Definition dotted_as_name (path t : string) : DottedAsNameNode :=
  {| value := dotted_of_string path; target := t |}.

(** The value of an import statement: the targets are objects of a store,
    the statement's [CommaProxyList] holds references to them.  A reference
    is the position of the object in the store; a new object is appended.
    RedBaron nodes are compared by identity, so [index] and [remove] look
    for the reference. *)
Record CommaProxyList := {
  objects : list DottedAsNameNode;
  data : list nat;
}.

(** ** class PrefixedImportSourceLoader *)

Module PrefixedImportSourceLoader.

Record t := {
  ext_prefix : string;
  whole_prefix : string;
  base_path : string;
  local_globals : gset string;
  rewrite : bool;
}.

(** [__init__(self, local_globals, ext_prefix, whole_prefix, base_path, rewrite)] *)
Definition init (local_globals : gset string) (ext_prefix whole_prefix base_path : string)
    (rewrite : bool) : t :=
  {| ext_prefix := ext_prefix; whole_prefix := whole_prefix; base_path := base_path;
     local_globals := local_globals; rewrite := rewrite |}.

(** The body of [for dotted_as in list(node)], lines 81-93, for the target
    referenced by [r].  [insert_after] inserts at [index_on_parent + 1];
    [parent.remove] removes the reference from the statement's list. *)
Definition import_item (self : t) (st : CommaProxyList * bool) (r : nat)
    : Result (CommaProxyList * bool) :=
  let '(cell, changed) := st in
  match objects cell !! r with
  | None => Raise ValueError   (* a reference always denotes an object *)
  | Some dotted_as =>
      let root := name0 (value dotted_as) in
      let n_components := len (value dotted_as) in
      if decide (root ∈ local_globals self) then
        let objects1 :=
          <[r := set_value0 dotted_as (whole_prefix self +:+ root)]> (objects cell) in
        cell' ←
          (if String.eqb (target dotted_as) "" then
             i ← PyList.index r (data cell);
             let new := length objects1 in
             let objects2 :=
               objects1 ++ [dotted_as_name (whole_prefix self +:+ root) root] in
             let data2 := PyList.insert (S i) new (data cell) in
             if Nat.eqb n_components 1 then
               data3 ← PyList.remove r data2;
               Return {| objects := objects2; data := data3 |}
             else Return {| objects := objects2; data := data2 |}
           else Return {| objects := objects1; data := data cell |});
        Return (cell', true)
      else Return (cell, changed)
  end.

(** The targets of a statement, read through the references of its list. *)
Fixpoint read_items (objs : list DottedAsNameNode) (refs : list nat)
    : Result (list DottedAsNameNode) :=
  match refs with
  | [] => Return []
  | r :: refs' =>
      match objs !! r with
      | None => Raise ValueError
      | Some d => ds ← read_items objs refs'; Return (d :: ds)
      end
  end.

(** Lines 80-93 for one import statement: the loop runs over [list(node)],
    a copy of the list taken before the first change. *)
Definition import_node (self : t) (items : list DottedAsNameNode) (changed : bool)
    : Result (list DottedAsNameNode * bool) :=
  let cell := {| objects := items; data := seq 0 (length items) |} in
  '(cell', changed') ← for_each (import_item self) (cell, changed) (data cell);
  items' ← read_items (objects cell') (data cell');
  Return (items', changed').

(** Lines 78-93: [for node in ast.find_all("ImportNode")]. *)
Fixpoint import_pass (self : t) (ast : RedBaron) (changed : bool)
    : Result (RedBaron * bool) :=
  match ast with
  | [] => Return ([], changed)
  | ImportNode items :: ast' =>
      '(items', changed1) ← import_node self items changed;
      '(ast'', changed2) ← import_pass self ast' changed1;
      Return (ImportNode items' :: ast'', changed2)
  | node :: ast' =>
      '(ast'', changed2) ← import_pass self ast' changed;
      Return (node :: ast'', changed2)
  end.

(** Lines 96-99 for one node. *)
Definition from_import_node (self : t) (node : Node) (changed : bool) : Node * bool :=
  match node with
  | FromImportNode v targets =>
      if decide (name0 v ∈ local_globals self)
      then (FromImportNode (set_name0 v (whole_prefix self +:+ name0 v)) targets, true)
      else (node, changed)
  | _ => (node, changed)
  end.

(** Lines 94-99: [for node in ast.find_all("FromImportNode")]. *)
Fixpoint from_import_pass (self : t) (ast : RedBaron) (changed : bool) : RedBaron * bool :=
  match ast with
  | [] => ([], changed)
  | node :: ast' =>
      let '(node', changed1) := from_import_node self node changed in
      let '(ast'', changed2) := from_import_pass self ast' changed1 in
      (node' :: ast'', changed2)
  end.

(** Lines 77-99: both loops, from [changed = False]. *)
Definition transform (self : t) (ast : RedBaron) : Result (RedBaron * bool) :=
  '(ast1, changed1) ← import_pass self ast false;
  Return (from_import_pass self ast1 changed1).

Section GetData.

(** [redbaron.RedBaron(text)]: the parser of the library. *)
Variable parse : string -> Result RedBaron.

(** Lines 76-100 on the text of a file: the serialized tree and [changed]. *)
Definition transform_source (self : t) (source : string) : Result (string * bool) :=
  ast ← parse source;
  '(ast', changed) ← transform self ast;
  Return (dumps ast', changed).

(** [get_data(self, path)]: the writes to the disk and the result.  The
    trace holds the writes that were carried out; what a write that raises
    leaves on the disk is not modelled. *)
Definition get_data (fs : FileSystem) (self : t) (path : string)
    : list Event * Result string :=
  if negb (Py.endswith path ".py") then ([], Return "")
  else
    match open_read fs path with
    | Raise e => ([], Raise e)
    | Return source =>
        match transform_source self source with
        | Raise e => ([], Raise e)
        | Return (code, changed) =>
            if rewrite self && changed then
              match open_write fs path with
              | Raise e => ([], Raise e)
              | Return _ => ([Write path code], Return code)
              end
            else ([], Return code)
        end
    end.

End GetData.

(** [get_filename(self, fullname)] *)
Definition get_filename (fs : FileSystem) (self : t) (fullname : string) : Result string :=
  let path :=
    os_path.join (base_path self)
      (Py.split dot (Py.drop (String.length (ext_prefix self)) fullname)) in
  let path :=
    if os_path_isdir fs path then
      let init := os_path.join path ["__init__.py"] in
      if os_path_exists fs init then init else path +:+ "/"
    else path +:+ ".py" in
  if negb (os_path_exists fs path) then Raise ImportError else Return path.

End PrefixedImportSourceLoader.

(** ** class ExternalPathFinder *)

(** What [importlib.util.spec_from_loader(fullname, loader, is_package=...)]
    returns. *)
Record ModuleSpec := {
  spec_name : string;
  loader : PrefixedImportSourceLoader.t;
  is_package : bool;
}.

Module ExternalPathFinder.

Record t := {
  name : string;
  prefix : string;
  base_path : string;
  local_submodules : gmap string (gset string);
  rewrite : bool;
}.

(** [__init__(self, name, base_path, rewrite=False)] *)
Definition init (name base_path : string) (rewrite : bool) : t :=
  {| name := name;
     prefix := name +:+ ".";
     base_path := if Py.endswith base_path ".py" then os_path.dirname base_path
                  else base_path;
     local_submodules := ∅;
     rewrite := rewrite |}.

(** The set built at lines 47-52 from the listing [items] of [path]. *)
Definition local_names (fs : FileSystem) (path : string) (items : list string)
    : gset string :=
  list_to_set
    (omap (fun item =>
             let is_dir := os_path_isdir fs (os_path.join path [item]) in
             if is_dir || Py.endswith item ".py"
             then Some (if negb is_dir && Py.endswith item ".py"
                        then Py.drop_last3 item else item)
             else None)
          items).

Definition set_local_submodules (self : t) (m : gmap string (gset string)) : t :=
  {| name := name self; prefix := prefix self; base_path := base_path self;
     local_submodules := m; rewrite := rewrite self |}.

(** Lines 54-59: the specification returned for [fullname], bound to a
    loader for [root] with the local names [locals]. *)
Definition make_spec (self : t) (fullname root : string) (locals : gset string)
    : ModuleSpec :=
  {| spec_name := fullname;
     loader := PrefixedImportSourceLoader.init locals (prefix self)
                 (prefix self +:+ root +:+ ".") (base_path self) (rewrite self);
     is_package := true |}.

(** [find_spec(self, fullname, path, target=None)]: the finder after the
    call, the calls of [os.listdir] it made, and its result ([None] is no
    opinion).  [path] and [target] are not used. *)
Definition find_spec (fs : FileSystem) (self : t) (fullname : string)
    : t * list Event * Result (option ModuleSpec) :=
  if Py.startswith fullname (prefix self) then
    let components := Py.split dot (Py.drop (String.length (prefix self)) fullname) in
    let root := hd "" components in
    match local_submodules self !! root with
    | Some locals => (self, [], Return (Some (make_spec self fullname root locals)))
    | None =>
        let path := os_path.join (base_path self) [root] in
        match os_listdir fs path with
        | Raise e => (self, [Listdir path false], Raise e)
        | Return items =>
            let locals := local_names fs path items in
            let self' :=
              set_local_submodules self (<[root := locals]> (local_submodules self)) in
            (self', [Listdir path true],
             Return (Some (make_spec self' fullname root locals)))
        end
    end
  else (self, [], Return None).

End ExternalPathFinder.

(** A sequence of resolution requests, each against the disk as it is at
    that moment: what each request listed and returned. *)
Record Request := {
  req_fullname : string;
  req_events : list Event;
  req_result : Result (option ModuleSpec);
}.

Fixpoint run (self : ExternalPathFinder.t) (calls : list (FileSystem * string))
    : ExternalPathFinder.t * list Request :=
  match calls with
  | [] => (self, [])
  | (fs, fullname) :: calls' =>
      let '(self', events, result) := ExternalPathFinder.find_spec fs self fullname in
      let '(self'', log) := run self' calls' in
      (self'', {| req_fullname := fullname; req_events := events;
                  req_result := result |} :: log)
  end.

(** The root a full name addresses: [components[0]] of line 44. *)
Definition root_of (self : ExternalPathFinder.t) (fullname : string) : string :=
  hd "" (Py.split dot
           (Py.drop (String.length (ExternalPathFinder.prefix self)) fullname)).

(** [fullname] is under the watched prefix and addresses [root]. *)
Definition under (self : ExternalPathFinder.t) (root fullname : string) : bool :=
  Py.startswith fullname (ExternalPathFinder.prefix self)
  && String.eqb (root_of self fullname) root.

Definition is_listing (e : Event) : bool :=
  match e with Listdir _ true => true | _ => false end.

(** The request listed a directory. *)
Definition listed (q : Request) : bool := existsb is_listing (req_events q).

(** The local-name set of the loader a request returned. *)
Definition returned_locals (q : Request) : option (gset string) :=
  match req_result q with
  | Return (Some spec) => Some (PrefixedImportSourceLoader.local_globals (loader spec))
  | _ => None
  end.

(** How many requests of a log addressed [root] and listed a directory. *)
Definition listings (self : ExternalPathFinder.t) (root : string) (log : list Request)
    : nat :=
  length (List.filter (fun q => under self root (req_fullname q) && listed q) log).

(** ** What the specification says of one import target (section 4.3)

    A target whose root is local is qualified; without an alias a synthetic
    binding follows it, and a bare [import root] is then removed. *)
Definition qualified (W : string) (d : DottedAsNameNode) : DottedAsNameNode :=
  set_value0 d (W +:+ name0 (value d)).

Definition synthetic (W : string) (d : DottedAsNameNode) : DottedAsNameNode :=
  dotted_as_name (W +:+ name0 (value d)) (name0 (value d)).

Definition spec_rewrite_target (L : gset string) (W : string) (d : DottedAsNameNode)
    : list DottedAsNameNode :=
  if decide (name0 (value d) ∈ L) then
    if String.eqb (target d) "" then
      if Nat.eqb (len (value d)) 1 then [synthetic W d]
      else [qualified W d; synthetic W d]
    else [qualified W d]
  else [d].

Definition is_local (L : gset string) (d : DottedAsNameNode) : bool :=
  bool_decide (name0 (value d) ∈ L).

(** ** Reading a serialized tree again

    A name that the rewriting has qualified holds dots; in the text it is a
    dotted path like any other, and parsing the text again yields its
    components.  [reparse] is the tree of the serialized text. *)
Definition resplit (v : DottedName) : DottedName := dotted_of_string (dumps_dotted v).

Definition reparse_node (n : Node) : Node :=
  match n with
  | ImportNode items =>
      ImportNode (map (fun d => {| value := resplit (value d); target := target d |}) items)
  | FromImportNode v targets => FromImportNode (resplit v) targets
  | OtherNode text => OtherNode text
  end.

Definition reparse (ast : RedBaron) : RedBaron := map reparse_node ast.

(** The names of a parsed tree are identifiers: none holds a dot. *)
Definition plain_name (s : string) : Prop := Py.contains dot s = false.

Definition plain_dotted (v : DottedName) : Prop := Forall plain_name (components v).

Definition plain_node (n : Node) : Prop :=
  match n with
  | ImportNode items => Forall (fun d => plain_dotted (value d)) items
  | FromImportNode v _ => plain_dotted v
  | OtherNode _ => True
  end.

Definition well_parsed (ast : RedBaron) : Prop := Forall plain_node ast.

(** The root component of an import statement's targets and of a
    from-import's module path are outside [L]. *)
Definition non_local_node (L : gset string) (n : Node) : Prop :=
  match n with
  | ImportNode items => Forall (fun d => name0 (value d) ∉ L) items
  | FromImportNode v _ => name0 v ∉ L
  | OtherNode _ => True
  end.

(** ** A parser for the examples

    The parser is an argument of [get_data].  For concrete sources the
    examples use this one: it reads a text line by line, a line
    [import a.b as c, d] or [from a.b import x as y, z] in canonical spacing
    as that statement, and any other line as text. *)
Module Baron.

Definition newline : string := String "010"%char "".

(** [s.split(sep)] for a separator of one or more characters; [skip]
    counts the characters of a separator still to pass. *)
Fixpoint split_go (sep : string) (skip : nat) (s : string) : list string :=
  match s with
  | EmptyString => [EmptyString]
  | String a s' =>
      match skip with
      | S k => split_go sep k s'
      | O =>
          if String.prefix sep s
          then EmptyString :: split_go sep (String.length sep - 1) s'
          else match split_go sep 0 s' with
               | x :: xs => String a x :: xs
               | [] => [String a EmptyString]
               end
      end
  end.

Definition split_str (sep s : string) : list string := split_go sep 0 s.

Definition parse_dotted_as (s : string) : DottedAsNameNode :=
  match split_str " as " s with
  | [p; t] => dotted_as_name p t
  | _ => dotted_as_name s ""
  end.

Definition parse_name_as (s : string) : NameAsNameNode :=
  match split_str " as " s with
  | [x; y] => {| imported := x; imported_as := y |}
  | _ => {| imported := s; imported_as := "" |}
  end.

Definition parse_line (line : string) : Node :=
  let candidate :=
    if Py.startswith line "import " then
      ImportNode (map parse_dotted_as (split_str ", " (Py.drop 7 line)))
    else if Py.startswith line "from " then
      match split_str " import " (Py.drop 5 line) with
      | [m; names] =>
          FromImportNode (dotted_of_string m) (map parse_name_as (split_str ", " names))
      | _ => OtherNode line
      end
    else OtherNode line in
  if String.eqb (dumps_node candidate) line then candidate else OtherNode line.

Fixpoint parse_lines (lines : list string) : RedBaron :=
  match lines with
  | [] => []
  | [l] => [parse_line l]
  | l :: ls => parse_line l :: OtherNode newline :: parse_lines ls
  end.

Definition parse (text : string) : Result RedBaron :=
  Return (parse_lines (Py.split "010"%char text)).

(** A text from its lines. *)
Definition lines (ls : list string) : string := Py.join newline ls.

End Baron.

(** ** Concrete disks for the examples *)

(** A disk with nothing on it. *)
Definition empty_disk : FileSystem :=
  {| os_listdir := fun _ => Raise FileNotFoundError;
     os_path_isdir := fun _ => false;
     os_path_exists := fun _ => false;
     open_read := fun _ => Raise FileNotFoundError;
     open_write := fun _ => Raise FileNotFoundError |}.

(** ** The rewriting as a function of the tree

    What the two loops do to one node, and whether the node marks the file
    as changed. *)
Definition rewrite_import_node (L : gset string) (W : string) (n : Node) : Node :=
  match n with
  | ImportNode items => ImportNode (flat_map (spec_rewrite_target L W) items)
  | _ => n
  end.

Definition rewrite_from_node (L : gset string) (W : string) (n : Node) : Node :=
  match n with
  | FromImportNode v targets =>
      if decide (name0 v ∈ L) then FromImportNode (set_name0 v (W +:+ name0 v)) targets
      else n
  | _ => n
  end.

Definition rewrite_node (L : gset string) (W : string) (n : Node) : Node :=
  rewrite_from_node L W (rewrite_import_node L W n).

Definition import_changes (L : gset string) (n : Node) : bool :=
  match n with
  | ImportNode items => existsb (is_local L) items
  | _ => false
  end.

Definition from_changes (L : gset string) (n : Node) : bool :=
  match n with
  | FromImportNode v _ => bool_decide (name0 v ∈ L)
  | _ => false
  end.

Definition node_changes (L : gset string) (n : Node) : bool :=
  import_changes L n || from_changes L n.

(** ** The fixture of the repository

    The namespace [root_external] with the root [some_package], whose
    directory holds [main.py], [submodule.py] and [other_submodule/]. *)
Definition fixture_locals : gset string := {[ "main"; "submodule"; "other_submodule" ]}.

Definition fixture_loader : PrefixedImportSourceLoader.t :=
  PrefixedImportSourceLoader.init fixture_locals "root_external."
    "root_external.some_package." "/project/root_external" true.

Definition bare (s : string) : DottedAsNameNode :=
  {| value := {| name0 := s; names := [] |}; target := "" |}.

Definition fixture_source : string :=
  Baron.lines ["import submodule, other_submodule.deep";
               "from submodule import name as root_name";
               "import os, sys as system"].

(** A disk whose only file is [main.py] of the fixture, holding [source]. *)
Definition fixture_disk (source : string) : FileSystem :=
  {| os_listdir := fun p =>
       if String.eqb p "/project/root_external/some_package"
       then Return ["main.py"; "submodule.py"; "other_submodule"; "README"]
       else Raise FileNotFoundError;
     os_path_isdir := fun p =>
       String.eqb p "/project/root_external/some_package"
       || String.eqb p "/project/root_external/some_package/other_submodule";
     os_path_exists := fun p =>
       String.eqb p "/project/root_external/some_package/"
       || String.eqb p "/project/root_external/some_package/main.py";
     open_read := fun p =>
       if String.eqb p "/project/root_external/some_package/main.py"
       then Return source else Raise FileNotFoundError;
     open_write := fun p =>
       if String.eqb p "/project/root_external/some_package/main.py"
       then Return tt else Raise PermissionError |}.

(** A namespace [ext] whose root [pkg] holds [a.py] and [ext.py]: the first
    component of the prefix is itself a local name. *)
Definition clash_disk : FileSystem :=
  {| os_listdir := fun p =>
       if String.eqb p "/project/ext/pkg" then Return ["a.py"; "ext.py"]
       else Raise FileNotFoundError;
     os_path_isdir := fun p => String.eqb p "/project/ext/pkg";
     os_path_exists := fun p =>
       String.eqb p "/project/ext/pkg/" || String.eqb p "/project/ext/pkg/a.py"
       || String.eqb p "/project/ext/pkg/ext.py";
     open_read := fun _ => Raise FileNotFoundError;
     open_write := fun _ => Raise PermissionError |}.

Definition clash_loader : PrefixedImportSourceLoader.t :=
  PrefixedImportSourceLoader.init (list_to_set ["a"; "ext"]) "ext." "ext.pkg."
    "/project/ext" false.

(** The finder of the fixture, registered with the path of the package's
    own [__init__.py]. *)
Definition fixture_finder : ExternalPathFinder.t :=
  ExternalPathFinder.init "root_external" "/project/root_external/__init__.py" true.

(** Three requests under [some_package]: the first while the disk is still
    empty, the others once the fixture is there. *)
Definition fixture_calls : list (FileSystem * string) :=
  [(empty_disk, "root_external.some_package");
   (fixture_disk fixture_source, "root_external.some_package");
   (fixture_disk fixture_source, "root_external.some_package.main")].

(** * Properties *)

(** ** Strings *)

Section Strings.

Implicit Types (s p q : string) (a c : ascii).

Lemma app_cons a s q : String a s +:+ q = String a (s +:+ q).
Proof. reflexivity. Qed.

Lemma app_empty_l s : "" +:+ s = s.
Proof. reflexivity. Qed.

Lemma app_assoc_str s p q : (s +:+ p) +:+ q = s +:+ (p +:+ q).
Proof. induction s as [|a s IH]; [done|]. by rewrite !app_cons, IH. Qed.

Lemma str_drop_app_length s p : Py.drop (String.length s) (s +:+ p) = p.
Proof. induction s as [|a s IH]; [done|]. rewrite app_cons. simpl. exact IH. Qed.

Lemma split_nonempty c s : Py.split c s ≠ [].
Proof.
  destruct s as [|a s]; simpl; [done|].
  destruct (Ascii.eqb a c); [done|]. by destruct (Py.split c s).
Qed.

Lemma split_cons c a s :
  Py.split c (String a s) =
  if Ascii.eqb a c then "" :: Py.split c s
  else String a (hd "" (Py.split c s)) :: tl (Py.split c s).
Proof.
  simpl. destruct (Ascii.eqb a c); [done|].
  pose proof (split_nonempty c s). by destruct (Py.split c s).
Qed.

Lemma join_cons_cons sep s p (l : list string) :
  Py.join sep (s :: p :: l) = s +:+ sep +:+ Py.join sep (p :: l).
Proof. reflexivity. Qed.

(** Joining the pieces of a split gives the string back. *)
Lemma join_split s : Py.join "." (Py.split dot s) = s.
Proof.
  induction s as [|a s IH]; [done|].
  rewrite split_cons. pose proof (split_nonempty dot s) as Hne.
  destruct (Py.split dot s) as [|x xs] eqn:E; [done|]. simpl hd. simpl tl.
  destruct (Ascii.eqb_spec a dot) as [->|Hneq].
  - rewrite join_cons_cons, IH. reflexivity.
  - destruct xs as [|y ys].
    + simpl in *. by rewrite IH.
    + rewrite join_cons_cons in *. rewrite app_cons. by rewrite IH.
Qed.

(** The first piece is decided by the text before the first dot. *)
Lemma hd_split_app p q :
  Py.contains dot p = true →
  hd "" (Py.split dot (p +:+ q)) = hd "" (Py.split dot p).
Proof.
  induction p as [|a p IH]; [done|]. simpl Py.contains.
  rewrite app_cons, !split_cons. destruct (Ascii.eqb a dot); [done|].
  simpl. intros H. by rewrite IH.
Qed.

Lemma contains_app_char c p q : Py.contains c (p +:+ String c q) = true.
Proof.
  induction p as [|a p IH].
  - rewrite app_empty_l. simpl. by rewrite Ascii.eqb_refl.
  - rewrite app_cons. simpl. by rewrite IH, orb_true_r.
Qed.

Lemma split_plain s : plain_name s → Py.split dot s = [s].
Proof.
  unfold plain_name. induction s as [|a s IH]; [done|]. simpl.
  destruct (Ascii.eqb a dot); [done|]. simpl. intros H. by rewrite IH.
Qed.

Lemma split_app_plain s q :
  plain_name s → Py.split dot (s +:+ String dot q) = s :: Py.split dot q.
Proof.
  unfold plain_name. induction s as [|a s IH]; intros H.
  - rewrite app_empty_l, split_cons. by rewrite Ascii.eqb_refl.
  - simpl in H. destruct (Ascii.eqb a dot) eqn:E; [done|]. simpl in H.
    rewrite app_cons, split_cons, E, IH by done. reflexivity.
Qed.

Lemma split_join_plain (l : list string) :
  l ≠ [] → Forall plain_name l → Py.split dot (Py.join "." l) = l.
Proof.
  induction l as [|x l IH]; [done|]. intros _ Hall.
  apply Forall_cons in Hall as [Hx Hl].
  destruct l as [|y l]; [by apply split_plain|].
  rewrite join_cons_cons.
  change ("." +:+ Py.join "." (y :: l)) with (String dot (Py.join "." (y :: l))).
  rewrite split_app_plain by done. by rewrite IH.
Qed.

End Strings.

(** ** Serialized names *)

Lemma dumps_dotted_of_string (path : string) : dumps_dotted (dotted_of_string path) = path.
Proof.
  unfold dumps_dotted, dotted_of_string, components.
  pose proof (join_split path) as H. pose proof (split_nonempty dot path).
  by destruct (Py.split dot path).
Qed.

Lemma dumps_dotted_set_name0 (W : string) (v : DottedName) :
  dumps_dotted (set_name0 v (W +:+ name0 v)) = W +:+ dumps_dotted v.
Proof.
  destruct v as [x l]. unfold dumps_dotted, components, set_name0. cbn [name0 names].
  destruct l as [|y l]; [done|].
  by rewrite !join_cons_cons, app_assoc_str.
Qed.

Lemma resplit_plain (v : DottedName) : plain_dotted v → resplit v = v.
Proof.
  intros H. unfold resplit, dotted_of_string, dumps_dotted.
  rewrite split_join_plain by done. by destruct v.
Qed.

Lemma name0_dotted_of_string (path : string) :
  name0 (dotted_of_string path) = hd "" (Py.split dot path).
Proof.
  unfold dotted_of_string. pose proof (split_nonempty dot path).
  by destruct (Py.split dot path).
Qed.

(** A qualified name read again starts with the first component of the
    prefix. *)
Lemma name0_resplit_qualified (W : string) (v : DottedName) :
  Py.contains dot W = true →
  name0 (resplit (set_name0 v (W +:+ name0 v))) = hd "" (Py.split dot W).
Proof.
  intros HW. unfold resplit.
  by rewrite dumps_dotted_set_name0, name0_dotted_of_string, hd_split_app.
Qed.

Lemma resplit_dotted_of_string (path : string) :
  resplit (dotted_of_string path) = dotted_of_string path.
Proof. unfold resplit. by rewrite dumps_dotted_of_string. Qed.

Lemma dumps_dotted_resplit (v : DottedName) : dumps_dotted (resplit v) = dumps_dotted v.
Proof. apply dumps_dotted_of_string. Qed.

Lemma dumps_node_reparse (n : Node) : dumps_node (reparse_node n) = dumps_node n.
Proof.
  destruct n as [items|v targets|text]; simpl; [|by rewrite dumps_dotted_resplit|done].
  do 2 f_equal. rewrite map_map. apply map_ext. intros d.
  unfold dumps_dotted_as. simpl. by rewrite dumps_dotted_resplit.
Qed.

(** The text of a tree read again is the text of the tree. *)
Lemma dumps_reparse (ast : RedBaron) : dumps (reparse ast) = dumps ast.
Proof.
  induction ast as [|n ast IH]; [done|]. simpl. by rewrite dumps_node_reparse, IH.
Qed.

Lemma reparse_well_parsed (ast : RedBaron) : well_parsed ast → reparse ast = ast.
Proof.
  induction 1 as [|n ast Hn _ IH]; [done|]. simpl. rewrite IH. f_equal.
  destruct n as [items|v targets|text]; simpl in *; [|by rewrite resplit_plain|done].
  f_equal. induction Hn as [|d items Hd _ IHd]; [done|]. simpl.
  rewrite IHd, resplit_plain by done. by destruct d.
Qed.

(** ** Python lists of references *)

Lemma index_app_notin (r : nat) (done rest : list nat) :
  r ∉ done → PyList.index r (done ++ r :: rest) = Return (length done).
Proof.
  induction done as [|x done IH]; intros Hnotin; simpl.
  - by rewrite Nat.eqb_refl.
  - apply not_elem_of_cons in Hnotin as [Hne Hnotin].
    destruct (Nat.eqb_spec x r); [done|]. by rewrite IH.
Qed.

Lemma insert_after_app (x r : nat) (done rest : list nat) :
  PyList.insert (S (length done)) x (done ++ r :: rest) = done ++ r :: x :: rest.
Proof.
  unfold PyList.insert.
  replace (S (length done)) with (length (done ++ [r])) by (rewrite length_app; simpl; lia).
  replace (done ++ r :: rest) with ((done ++ [r]) ++ rest) by (by rewrite <- app_assoc).
  rewrite take_app_length, drop_app_length. by rewrite <- app_assoc.
Qed.

Lemma remove_app_notin (r : nat) (done rest : list nat) :
  r ∉ done → PyList.remove r (done ++ r :: rest) = Return (done ++ rest).
Proof.
  induction done as [|x done IH]; intros Hnotin; simpl.
  - by rewrite Nat.eqb_refl.
  - apply not_elem_of_cons in Hnotin as [Hne Hnotin].
    destruct (Nat.eqb_spec x r); [done|]. by rewrite IH.
Qed.

Lemma read_items_app (objs : list DottedAsNameNode) (l1 l2 : list nat) ds1 ds2 :
  PrefixedImportSourceLoader.read_items objs l1 = Return ds1 →
  PrefixedImportSourceLoader.read_items objs l2 = Return ds2 →
  PrefixedImportSourceLoader.read_items objs (l1 ++ l2) = Return (ds1 ++ ds2).
Proof.
  revert ds1. induction l1 as [|r l1 IH]; intros ds1 H1 H2; simpl in *.
  - by inversion H1.
  - destruct (objs !! r) as [d|]; [|done].
    destruct (PrefixedImportSourceLoader.read_items objs l1) as [ds|e] eqn:E; [|done].
    simpl in H1. inversion H1; subst. by rewrite (IH ds eq_refl H2).
Qed.

(** ** The loop over the targets of an import statement *)

Section ImportLoop.

Import PrefixedImportSourceLoader.

Variable self : t.

Lemma read_items_ext (objs objs' : list DottedAsNameNode) (l : list nat) :
  (∀ x, x ∈ l → objs' !! x = objs !! x) → read_items objs' l = read_items objs l.
Proof.
  induction l as [|r l IH]; intros H; [done|]. simpl.
  rewrite (H r) by apply list_elem_of_here.
  rewrite IH; [done|]. intros x Hx. apply H. by apply list_elem_of_further.
Qed.

Lemma read_items_lt (objs : list DottedAsNameNode) (l : list nat) ds :
  read_items objs l = Return ds → ∀ x, x ∈ l → x < length objs.
Proof.
  revert ds. induction l as [|r l IH]; intros ds H x Hx; [by apply elem_of_nil in Hx|].
  simpl in H. destruct (objs !! r) as [d|] eqn:E; [|done].
  destruct (read_items objs l) as [ds'|e] eqn:E'; [|done].
  apply elem_of_cons in Hx as [->|Hx]; [by eapply lookup_lt_Some|by eapply IH].
Qed.

Lemma read_items_all (objs : list DottedAsNameNode) :
  read_items objs (seq 0 (length objs)) = Return objs.
Proof.
  assert (∀ pre l, read_items (pre ++ l) (seq (length pre) (length l)) = Return l) as H.
  { intros pre l. revert pre. induction l as [|d l IH]; intros pre; [done|]. simpl.
    rewrite list_lookup_middle by done.
    replace (pre ++ d :: l) with ((pre ++ [d]) ++ l) by (by rewrite <- app_assoc).
    replace (S (length pre)) with (length (pre ++ [d])) by (rewrite length_app; simpl; lia).
    by rewrite IH. }
  apply (H [] objs).
Qed.

(** One turn of the loop, on the target [d] referenced by [r]: the targets
    the specification gives for [d] take its place in the list. *)
Lemma import_item_spec objs done r todo d c :
  objs !! r = Some d → r ∉ done →
  ∃ objs' new,
    import_item self ({| objects := objs; data := done ++ r :: todo |}, c) r
      = Return ({| objects := objs'; data := (done ++ new) ++ todo |},
                c || is_local (local_globals self) d)
    ∧ read_items objs' new
      = Return (spec_rewrite_target (local_globals self) (whole_prefix self) d)
    ∧ length objs ≤ length objs'
    ∧ (∀ x, x ≠ r → x < length objs → objs' !! x = objs !! x)
    ∧ (∀ x, x ∈ new → x = r ∨ length objs ≤ x).
Proof.
  intros Hd Hr. pose proof (lookup_lt_Some _ _ _ Hd) as Hlt.
  unfold import_item, spec_rewrite_target, is_local. cbn [objects data]. rewrite Hd.
  destruct (decide (name0 (value d) ∈ local_globals self)) as [Hin|Hout].
  - rewrite bool_decide_eq_true_2, orb_true_r by done.
    set (q := set_value0 d (whole_prefix self +:+ name0 (value d))).
    set (syn := dotted_as_name (whole_prefix self +:+ name0 (value d)) (name0 (value d))).
    destruct (String.eqb (target d) "").
    + rewrite index_app_notin by done. cbn [mbind Result_bind].
      rewrite insert_after_app, length_insert.
      destruct (Nat.eqb (len (value d)) 1).
      * rewrite remove_app_notin by done. cbn [mbind Result_bind].
        exists (<[r:=q]> objs ++ [syn]), [length objs]. split_and!.
        -- by rewrite <- app_assoc.
        -- simpl. rewrite lookup_app_r by (rewrite length_insert; lia).
           by rewrite length_insert, Nat.sub_diag.
        -- rewrite length_app, length_insert. lia.
        -- intros x Hx Hxl. rewrite lookup_app_l by (rewrite length_insert; lia).
           by rewrite list_lookup_insert_ne.
        -- intros x Hx. apply list_elem_of_singleton in Hx. lia.
      * cbn [mbind Result_bind].
        exists (<[r:=q]> objs ++ [syn]), [r; length objs]. split_and!.
        -- by rewrite <- app_assoc.
        -- simpl. rewrite lookup_app_l by (rewrite length_insert; lia).
           rewrite list_lookup_insert_eq by done.
           rewrite lookup_app_r by (rewrite length_insert; lia).
           by rewrite length_insert, Nat.sub_diag.
        -- rewrite length_app, length_insert. lia.
        -- intros x Hx Hxl. rewrite lookup_app_l by (rewrite length_insert; lia).
           by rewrite list_lookup_insert_ne.
        -- intros x Hx. apply elem_of_cons in Hx as [->|Hx]; [by left|].
           apply list_elem_of_singleton in Hx. lia.
    + cbn [mbind Result_bind]. exists (<[r:=q]> objs), [r]. split_and!.
      * by rewrite <- app_assoc.
      * simpl. by rewrite list_lookup_insert_eq.
      * by rewrite length_insert.
      * intros x Hx Hxl. by rewrite list_lookup_insert_ne.
      * intros x Hx. apply list_elem_of_singleton in Hx. by left.
  - rewrite bool_decide_eq_false_2, orb_false_r by done.
    exists objs, [r]. split_and!; [by rewrite <- app_assoc|by simpl; rewrite Hd|done|done|].
    intros x Hx. apply list_elem_of_singleton in Hx. by left.
Qed.

(** The whole loop: the list becomes the concatenation of what the
    specification gives for each target, in order. *)
Lemma import_loop_spec todo : ∀ ds objs done c,
  NoDup todo → (∀ x, x ∈ todo → x ∉ done) →
  read_items objs todo = Return ds →
  ∃ objs' new,
    for_each (import_item self) ({| objects := objs; data := done ++ todo |}, c) todo
      = Return ({| objects := objs'; data := done ++ new |},
                c || existsb (is_local (local_globals self)) ds)
    ∧ read_items objs' new
      = Return (flat_map (spec_rewrite_target (local_globals self) (whole_prefix self)) ds)
    ∧ length objs ≤ length objs'
    ∧ (∀ x, x ∉ todo → x < length objs → objs' !! x = objs !! x).
Proof.
  induction todo as [|r todo IH]; intros ds objs done c Hnd Hdis Hread.
  - inversion Hread; subst. exists objs, []. simpl.
    by rewrite orb_false_r.
  - simpl in Hread. destruct (objs !! r) as [d|] eqn:Hd; [|done].
    destruct (read_items objs todo) as [ds'|e] eqn:Hds; [|done].
    inversion Hread; subst ds. clear Hread.
    apply NoDup_cons in Hnd as [Hr Hnd].
    destruct (import_item_spec objs done r todo d c Hd) as
      (objs1 & new1 & Hstep & Hread1 & Hlen1 & Hstable1 & Hnew1).
    { apply Hdis, list_elem_of_here. }
    pose proof (read_items_lt _ _ _ Hds) as Hlt.
    assert (∀ x, x ∈ todo → x ∉ new1) as Hfresh.
    { intros x Hx Hx1. destruct (Hnew1 x Hx1) as [->|Hge]; [done|].
      specialize (Hlt x Hx). lia. }
    destruct (IH ds' objs1 (done ++ new1) (c || is_local (local_globals self) d) Hnd)
      as (objs' & new' & Hloop & Hread' & Hlen' & Hstable').
    { intros x Hx. apply not_elem_of_app. split; [|by apply Hfresh].
      apply Hdis. by apply list_elem_of_further. }
    { rewrite <- Hds. apply read_items_ext. intros x Hx. apply Hstable1; [|by apply Hlt].
      intros ->. done. }
    exists objs', (new1 ++ new'). split_and!.
    + cbn [for_each existsb]. rewrite Hstep. cbn [mbind Result_bind]. rewrite Hloop.
      by rewrite <- app_assoc, <- orb_assoc.
    + cbn [flat_map]. apply read_items_app; [|done]. rewrite <- Hread1.
      apply read_items_ext. intros x Hx. apply Hstable'; [by intros ?; eapply Hfresh|].
      by eapply read_items_lt.
    + lia.
    + intros x Hx Hxl. apply not_elem_of_cons in Hx as [Hne Hx].
      rewrite Hstable' by (done || lia). by apply Hstable1.
Qed.

(** The loop of lines 80-93 on a statement, as a function of its targets. *)
Lemma import_node_flat_map (items : list DottedAsNameNode) (c : bool) :
  import_node self items c
  = Return (flat_map (spec_rewrite_target (local_globals self) (whole_prefix self)) items,
            c || existsb (is_local (local_globals self)) items).
Proof.
  unfold import_node. cbn [objects data].
  destruct (import_loop_spec (seq 0 (length items)) items items [] c)
    as (objs' & new & Hloop & Hread & _).
  - apply NoDup_seq.
  - intros x _. apply not_elem_of_nil.
  - apply read_items_all.
  - simpl in Hloop. rewrite Hloop. cbn [mbind Result_bind objects data].
    by rewrite Hread.
Qed.

End ImportLoop.

(** ** The two loops over the tree *)

Section Passes.

Import PrefixedImportSourceLoader.

Variable self : t.

Lemma import_pass_map (ast : RedBaron) : ∀ c,
  import_pass self ast c
  = Return (map (rewrite_import_node (local_globals self) (whole_prefix self)) ast,
            c || existsb (import_changes (local_globals self)) ast).
Proof.
  induction ast as [|n ast IH]; intros c.
  - simpl. by rewrite orb_false_r.
  - destruct n as [items|v targets|text]; cbn [import_pass map existsb import_changes
      rewrite_import_node].
    + rewrite import_node_flat_map. cbn [mbind Result_bind]. rewrite IH.
      cbn [mbind Result_bind]. by rewrite orb_assoc.
    + rewrite IH. cbn [mbind Result_bind]. done.
    + rewrite IH. cbn [mbind Result_bind]. done.
Qed.

Lemma from_import_node_eq (n : Node) (c : bool) :
  from_import_node self n c
  = (rewrite_from_node (local_globals self) (whole_prefix self) n,
     c || from_changes (local_globals self) n).
Proof.
  destruct n as [items|v targets|text]; simpl; rewrite ?orb_false_r; [done| |done].
  destruct (decide (name0 v ∈ local_globals self)).
  - by rewrite bool_decide_eq_true_2, orb_true_r.
  - by rewrite bool_decide_eq_false_2, orb_false_r.
Qed.

Lemma from_import_pass_map (ast : RedBaron) : ∀ c,
  from_import_pass self ast c
  = (map (rewrite_from_node (local_globals self) (whole_prefix self)) ast,
     c || existsb (from_changes (local_globals self)) ast).
Proof.
  induction ast as [|n ast IH]; intros c.
  - simpl. by rewrite orb_false_r.
  - cbn [from_import_pass map existsb]. rewrite from_import_node_eq, IH.
    by rewrite orb_assoc.
Qed.

Lemma from_changes_rewrite_import (n : Node) :
  from_changes (local_globals self)
    (rewrite_import_node (local_globals self) (whole_prefix self) n)
  = from_changes (local_globals self) n.
Proof. by destruct n. Qed.

Lemma existsb_node_changes (ast : RedBaron) :
  existsb (import_changes (local_globals self)) ast
  || existsb (from_changes (local_globals self))
       (map (rewrite_import_node (local_globals self) (whole_prefix self)) ast)
  = existsb (node_changes (local_globals self)) ast.
Proof.
  induction ast as [|n ast IH]; [done|].
  cbn [map existsb]. rewrite from_changes_rewrite_import, <- IH. unfold node_changes.
  generalize (existsb (from_changes (local_globals self))
                (map (rewrite_import_node (local_globals self) (whole_prefix self)) ast)).
  intros b. by destruct (import_changes _ n), (from_changes _ n),
    (existsb (import_changes _) ast), b.
Qed.

(** The transformation never raises; it rewrites each node on its own, and
    marks the file as changed when some node does. *)
Lemma transform_map (ast : RedBaron) :
  transform self ast
  = Return (map (rewrite_node (local_globals self) (whole_prefix self)) ast,
            existsb (node_changes (local_globals self)) ast).
Proof.
  unfold transform. rewrite import_pass_map. cbn [mbind Result_bind].
  rewrite from_import_pass_map, map_map. cbn [orb].
  by rewrite existsb_node_changes.
Qed.

End Passes.

(** ** Nodes that the rewriting leaves alone *)

Lemma flat_map_non_local (L : gset string) (W : string) (items : list DottedAsNameNode) :
  Forall (fun d => name0 (value d) ∉ L) items →
  flat_map (spec_rewrite_target L W) items = items
  ∧ existsb (is_local L) items = false.
Proof.
  induction 1 as [|d items Hd _ [IH1 IH2]]; [done|].
  cbn [flat_map existsb]. unfold spec_rewrite_target at 1, is_local at 1.
  rewrite decide_False, bool_decide_eq_false_2 by done. simpl. by rewrite IH1, IH2.
Qed.

Lemma rewrite_node_non_local (L : gset string) (W : string) (n : Node) :
  non_local_node L n → rewrite_node L W n = n ∧ node_changes L n = false.
Proof.
  destruct n as [items|v targets|text]; simpl; intros H.
  - destruct (flat_map_non_local L W items H) as [H1 H2].
    unfold rewrite_node, node_changes. simpl. by rewrite H1, H2.
  - unfold rewrite_node, node_changes. simpl.
    by rewrite decide_False, bool_decide_eq_false_2.
  - done.
Qed.

Lemma transform_non_local (self : PrefixedImportSourceLoader.t) (ast : RedBaron) :
  Forall (non_local_node (PrefixedImportSourceLoader.local_globals self)) ast →
  PrefixedImportSourceLoader.transform self ast = Return (ast, false).
Proof.
  intros H. rewrite transform_map. do 2 f_equal.
  - induction H as [|n ast Hn _ IH]; [done|]. cbn [map].
    rewrite IH. by destruct (rewrite_node_non_local _ (PrefixedImportSourceLoader.whole_prefix self) _ Hn) as [-> _].
  - induction H as [|n ast Hn _ IH]; [done|]. cbn [existsb].
    rewrite IH. by destruct (rewrite_node_non_local _ (PrefixedImportSourceLoader.whole_prefix self) _ Hn) as [_ ->].
Qed.

(** ** The claims on the rewriting *)

Section Rewriting.

Import PrefixedImportSourceLoader.

(** C1. In the transformation of a file, a target of a plain import whose
    first component is a local name is rewritten in place, between what the
    loop makes of the targets before and after it, in a statement that stays
    where it was: its first component becomes the whole prefix followed by
    the root; without an alias a synthetic target, the qualified root bound
    to the original name, follows it, and the original target is removed
    when it had one component and kept when it had several; with an alias
    nothing is added.  The file is marked as changed. *)
Theorem plain_import_local_target (self : t) (ast1 ast2 : RedBaron)
    (before after : list DottedAsNameNode) (d : DottedAsNameNode) :
  name0 (value d) ∈ local_globals self →
  let W := whole_prefix self in
  let root := name0 (value d) in
  let q := {| value := {| name0 := W +:+ root; names := names (value d) |};
              target := target d |} in
  let syn := {| value := dotted_of_string (W +:+ root); target := root |} in
  let rewritten :=
    if String.eqb (target d) ""
    then if Nat.eqb (len (value d)) 1 then [syn] else [q; syn]
    else [q] in
  ∃ ast1' ast2' before' after' c1 c2 c3 c4,
    transform self ast1 = Return (ast1', c1)
    ∧ transform self ast2 = Return (ast2', c2)
    ∧ import_node self before false = Return (before', c3)
    ∧ import_node self after false = Return (after', c4)
    ∧ (∀ changed,
         import_node self (before ++ d :: after) changed
         = Return (before' ++ rewritten ++ after', true))
    ∧ transform self (ast1 ++ ImportNode (before ++ d :: after) :: ast2)
      = Return (ast1' ++ ImportNode (before' ++ rewritten ++ after') :: ast2', true)
    ∧ dumps_dotted (value q) = W +:+ dumps_dotted (value d)
    ∧ dumps_dotted_as syn = dumps_as (W +:+ root) root.
Proof.
  intros Hin W root q syn rewritten. subst W.
  set (L := local_globals self). set (W := whole_prefix self).
  assert (flat_map (spec_rewrite_target L W) (before ++ d :: after)
          = flat_map (spec_rewrite_target L W) before ++ rewritten
            ++ flat_map (spec_rewrite_target L W) after) as Hflat.
  { rewrite flat_map_app. cbn [flat_map]. unfold spec_rewrite_target at 2.
    by rewrite decide_True by done. }
  assert (existsb (is_local L) (before ++ d :: after) = true) as Hex.
  { rewrite existsb_app. cbn [existsb]. unfold is_local at 2.
    by rewrite bool_decide_eq_true_2, orb_true_l, orb_true_r by done. }
  eexists _, _, _, _, _, _, _, _. rewrite !transform_map, !import_node_flat_map.
  split_and!; [done|done|done|done| | | |].
  - intros changed. rewrite import_node_flat_map. fold L W.
    by rewrite Hflat, Hex, orb_true_r.
  - rewrite map_app, existsb_app. cbn [map existsb].
    unfold rewrite_node at 2, node_changes at 2.
    cbn [rewrite_import_node rewrite_from_node import_changes from_changes].
    fold L W. by rewrite Hflat, Hex, orb_true_l, orb_true_r.
  - apply (dumps_dotted_set_name0 W (value d)).
  - unfold dumps_dotted_as, syn. cbn [value target]. by rewrite dumps_dotted_of_string.
Qed.

Lemma plain_import_local_target_witness :
  transform fixture_loader
    [OtherNode "x = 1"; ImportNode [bare "os"; bare "submodule"; bare "sys"]]
  = Return ([OtherNode "x = 1";
             ImportNode
               [bare "os";
                {| value := {| name0 := "root_external";
                               names := ["some_package"; "submodule"] |};
                   target := "submodule" |};
                bare "sys"]], true).
Proof.
  destruct (plain_import_local_target fixture_loader [OtherNode "x = 1"] []
              [bare "os"] [bare "sys"] (bare "submodule"))
    as (a1 & a2 & b & a & c1 & c2 & c3 & c4 & H1 & H2 & Hb & Ha & _ & H & _).
  - vm_compute. set_solver.
  - etrans; [exact H|]. vm_compute in H1, H2, Hb, Ha.
    inversion H1. inversion H2. inversion Hb. inversion Ha. reflexivity.
Defined.

(** C3. A from-import whose module path starts with a local name has that
    first component, and nothing else, qualified with the whole prefix: the
    other components and the imported names with their aliases are the
    same, the nodes around it are rewritten as they are on their own, and
    the file is marked as changed. *)
Theorem from_import_local (self : t) (before after : RedBaron) (v : DottedName)
    (targets : list NameAsNameNode) :
  name0 v ∈ local_globals self →
  let W := whole_prefix self in
  let v' := {| name0 := W +:+ name0 v; names := names v |} in
  ∃ before' after' c1 c2,
    transform self before = Return (before', c1)
    ∧ transform self after = Return (after', c2)
    ∧ transform self (before ++ FromImportNode v targets :: after)
      = Return (before' ++ FromImportNode v' targets :: after', true)
    ∧ dumps_dotted v' = W +:+ dumps_dotted v.
Proof.
  intros Hin W v'.
  eexists _, _, _, _. rewrite !transform_map. split_and!; [done|done| |].
  - rewrite map_app, existsb_app. cbn [map existsb].
    unfold rewrite_node at 2, node_changes at 2. cbn [rewrite_import_node rewrite_from_node
      import_changes from_changes].
    rewrite decide_True, bool_decide_eq_true_2 by done.
    by rewrite orb_true_l, orb_true_r.
  - apply (dumps_dotted_set_name0 W v).
Qed.

Lemma from_import_local_witness :
  transform fixture_loader
    [FromImportNode {| name0 := "other_submodule"; names := ["deep"] |}
       [{| imported := "name"; imported_as := "deep_name" |}]]
  = Return ([FromImportNode
               {| name0 := "root_external.some_package.other_submodule"; names := ["deep"] |}
               [{| imported := "name"; imported_as := "deep_name" |}]], true).
Proof.
  destruct (from_import_local fixture_loader [] []
              {| name0 := "other_submodule"; names := ["deep"] |}
              [{| imported := "name"; imported_as := "deep_name" |}])
    as (b & a & c1 & c2 & Hb & Ha & H & _).
  - vm_compute. set_solver.
  - etrans; [exact H|]. vm_compute in Hb, Ha. inversion Hb. inversion Ha. reflexivity.
Defined.

(** C7. An import statement whose root components are outside the
    local-name set is the same node after the transformation, whatever
    surrounds it, and it adds nothing to the changed mark, which is that of
    the nodes around it; a file that holds only such statements is returned
    as parsed, unmarked, and is not written even in rewrite mode: the text
    returned is the serialized parsed tree, the source itself when the
    parser keeps every character.  Within a plain import, a target with a
    non-local root is the same after the loop. *)
Theorem non_local_imports_untouched (self : t) (before after : RedBaron) (n : Node) :
  non_local_node (local_globals self) n →
  (∃ before' after' c1 c2,
     transform self before = Return (before', c1)
     ∧ transform self after = Return (after', c2)
     ∧ transform self (before ++ n :: after) = Return (before' ++ n :: after', c1 || c2))
  ∧ (Forall (non_local_node (local_globals self)) (before ++ after) →
     transform self (before ++ n :: after) = Return (before ++ n :: after, false)
     ∧ ∀ parse fs path source,
         Py.endswith path ".py" = true →
         open_read fs path = Return source →
         parse source = Return (before ++ n :: after) →
         get_data parse fs self path = ([], Return (dumps (before ++ n :: after)))
         ∧ (dumps (before ++ n :: after) = source →
            get_data parse fs self path = ([], Return source)))
  ∧ (∀ items1 items2 d c,
       name0 (value d) ∉ local_globals self →
       ∃ items1' items2' c1 c2,
         import_node self items1 c = Return (items1', c1)
         ∧ import_node self items2 c = Return (items2', c2)
         ∧ import_node self (items1 ++ d :: items2) c
           = Return (items1' ++ d :: items2', c1 || c2)).
Proof.
  intros Hn.
  destruct (rewrite_node_non_local _ (whole_prefix self) _ Hn) as [Hsame Hmark].
  split_and!.
  - eexists _, _, _, _. rewrite !transform_map. split_and!; [done|done|].
    rewrite map_app, existsb_app. cbn [map existsb]. by rewrite Hsame, Hmark.
  - intros Hall.
    assert (transform self (before ++ n :: after) = Return (before ++ n :: after, false))
      as Htr.
    { apply transform_non_local. apply Forall_app in Hall as [Hb Ha].
      apply Forall_app. split; [done|]. by apply Forall_cons. }
    split; [done|]. intros parse fs path source Hpy Hread Hparse.
    unfold get_data, transform_source. rewrite Hpy, Hread, Hparse. cbn [negb mbind Result_bind].
    rewrite Htr. cbn [mbind Result_bind]. rewrite andb_false_r.
    split; [done|]. by intros ->.
  - intros items1 items2 d c Hd.
    eexists _, _, _, _. rewrite !import_node_flat_map. split_and!; [done|done|].
    rewrite flat_map_app, existsb_app. cbn [flat_map existsb].
    unfold spec_rewrite_target at 2, is_local at 2.
    rewrite decide_False, bool_decide_eq_false_2 by done. do 2 f_equal.
    by destruct c, (existsb (is_local (local_globals self)) items1),
      (existsb (is_local (local_globals self)) items2).
Qed.

Lemma non_local_imports_untouched_witness :
  transform fixture_loader
    [FromImportNode {| name0 := "submodule"; names := [] |}
       [{| imported := "name"; imported_as := "" |}];
     ImportNode [bare "os"; {| value := {| name0 := "sys"; names := [] |}; target := "s" |}]]
  = Return
      ([FromImportNode {| name0 := "root_external.some_package.submodule"; names := [] |}
          [{| imported := "name"; imported_as := "" |}];
        ImportNode [bare "os"; {| value := {| name0 := "sys"; names := [] |}; target := "s" |}]],
       true).
Proof.
  destruct (non_local_imports_untouched fixture_loader
              [FromImportNode {| name0 := "submodule"; names := [] |}
                 [{| imported := "name"; imported_as := "" |}]]
              []
              (ImportNode
                 [bare "os"; {| value := {| name0 := "sys"; names := [] |}; target := "s" |}]))
    as [(b & a & c1 & c2 & Hb & Ha & H) _].
  - repeat constructor; vm_compute; set_solver.
  - etrans; [exact H|]. vm_compute in Hb, Ha. inversion Hb. inversion Ha. reflexivity.
Defined.

(** C8. For a source file that is read and parsed, [get_data] returns the
    serialized tree whether or not it changed; it writes nothing unless the
    loader rewrites in place and the transformation marked a change, and
    then it replaces the file at that path by the same serialized text. *)
Theorem get_data_writes_iff_changed (parse : string → Result RedBaron) (fs : FileSystem)
    (self : t) (path source : string) (ast : RedBaron) :
  Py.endswith path ".py" = true →
  open_read fs path = Return source →
  parse source = Return ast →
  ∃ ast' changed,
    transform self ast = Return (ast', changed)
    ∧ (rewrite self && changed = false →
       get_data parse fs self path = ([], Return (dumps ast')))
    ∧ (rewrite self && changed = true →
       open_write fs path = Return tt →
       get_data parse fs self path = ([Write path (dumps ast')], Return (dumps ast'))).
Proof.
  intros Hpy Hread Hparse. eexists _, _. split; [apply transform_map|].
  unfold get_data, transform_source. rewrite Hpy, Hread, Hparse. cbn [negb mbind Result_bind].
  rewrite transform_map. cbn [mbind Result_bind].
  split; intros ->; [done|]. by intros ->.
Qed.

Lemma get_data_writes_iff_changed_witness :
  get_data Baron.parse (fixture_disk fixture_source) fixture_loader
    "/project/root_external/some_package/main.py"
  = (let code :=
       Baron.lines
         ["import root_external.some_package.submodule as submodule, root_external.some_package.other_submodule.deep, root_external.some_package.other_submodule as other_submodule";
          "from root_external.some_package.submodule import name as root_name";
          "import os, sys as system"] in
     ([Write "/project/root_external/some_package/main.py" code], Return code)).
Proof.
  destruct (get_data_writes_iff_changed Baron.parse (fixture_disk fixture_source)
              fixture_loader "/project/root_external/some_package/main.py"
              fixture_source
              [ImportNode [bare "submodule";
                           {| value := {| name0 := "other_submodule"; names := ["deep"] |};
                              target := "" |}];
               OtherNode Baron.newline;
               FromImportNode {| name0 := "submodule"; names := [] |}
                 [{| imported := "name"; imported_as := "root_name" |}];
               OtherNode Baron.newline;
               ImportNode [bare "os";
                           {| value := {| name0 := "sys"; names := [] |};
                              target := "system" |}]])
    as (ast' & changed & Htr & _ & Hwrite); [reflexivity..|].
  vm_compute in Htr. inversion Htr; subst ast' changed.
  etrans; [apply Hwrite; reflexivity|]. reflexivity.
Defined.

End Rewriting.

(** ** Rewriting a rewritten text *)

Section Idempotence.

Import PrefixedImportSourceLoader.

Variables (L : gset string) (W : string).
Hypothesis W_dotted : Py.contains dot W = true.
Hypothesis W_fresh : hd "" (Py.split dot W) ∉ L.

Lemma reparse_target_non_local (d : DottedAsNameNode) :
  plain_dotted (value d) →
  Forall (fun d' => name0 (resplit (value d')) ∉ L) (spec_rewrite_target L W d).
Proof.
  intros Hplain. unfold spec_rewrite_target.
  assert (name0 (resplit (value (qualified W d))) ∉ L) as Hq.
  { unfold qualified, set_value0. cbn [value]. by rewrite name0_resplit_qualified. }
  assert (name0 (resplit (value (synthetic W d))) ∉ L) as Hs.
  { unfold synthetic, dotted_as_name. cbn [value].
    by rewrite resplit_dotted_of_string, name0_dotted_of_string, hd_split_app. }
  destruct (decide (name0 (value d) ∈ L)) as [Hin|Hout].
  - destruct (String.eqb (target d) ""), (Nat.eqb (len (value d)) 1);
      repeat first [by apply Forall_nil | apply Forall_cons; split]; done.
  - apply Forall_cons; split; [|by apply Forall_nil]. by rewrite resplit_plain.
Qed.

(** After a first pass, no root component of the text is a local name. *)
Lemma reparse_rewrite_non_local (n : Node) :
  plain_node n → non_local_node L (reparse_node (rewrite_node L W n)).
Proof.
  destruct n as [items|v targets|text]; cbn [plain_node]; intros Hplain; [| |done].
  - unfold rewrite_node. cbn [rewrite_import_node rewrite_from_node reparse_node
      non_local_node].
    apply List.Forall_map. cbn [value].
    induction Hplain as [|d items Hd _ IH]; [by apply Forall_nil|].
    cbn [flat_map]. apply Forall_app. split; [|done].
    by apply reparse_target_non_local.
  - unfold rewrite_node. cbn [rewrite_import_node rewrite_from_node].
    destruct (decide (name0 v ∈ L)) as [Hin|Hout]; cbn [reparse_node non_local_node].
    + by rewrite name0_resplit_qualified.
    + by rewrite resplit_plain.
Qed.

Lemma reparse_rewritten_non_local (ast : RedBaron) :
  well_parsed ast → Forall (non_local_node L) (reparse (map (rewrite_node L W) ast)).
Proof.
  induction 1 as [|n ast Hn _ IH]; [by apply Forall_nil|].
  cbn [map reparse]. apply Forall_cons. split; [|done].
  by apply reparse_rewrite_non_local.
Qed.

End Idempotence.

Section RewritingTwice.

Import PrefixedImportSourceLoader.

(** C2, as the code has it.  A second pass over the text of a first pass
    returns the same text and reports no change, provided the first dotted
    component of the whole prefix is not itself a local name: the source is
    parsed into a tree whose names are identifiers, and the text of the
    first pass is parsed into the tree of that text. *)
Theorem rewriting_idempotent (parse : string → Result RedBaron) (self : t)
    (source : string) (ast ast1 : RedBaron) (changed : bool) :
  Py.contains dot (whole_prefix self) = true →
  hd "" (Py.split dot (whole_prefix self)) ∉ local_globals self →
  parse source = Return ast →
  well_parsed ast →
  transform self ast = Return (ast1, changed) →
  parse (dumps ast1) = Return (reparse ast1) →
  transform_source parse self source = Return (dumps ast1, changed)
  ∧ transform_source parse self (dumps ast1) = Return (dumps ast1, false).
Proof.
  intros HW Hfresh Hparse Hwf Htr Hparse1. unfold transform_source.
  rewrite Hparse, Hparse1. cbn [mbind Result_bind]. rewrite Htr. cbn [mbind Result_bind].
  split; [done|].
  rewrite transform_non_local; [cbn [mbind Result_bind]; by rewrite dumps_reparse|].
  rewrite transform_map in Htr. inversion Htr as [[Hast1 Hch]].
  by apply reparse_rewritten_non_local.
Qed.

Lemma rewriting_idempotent_witness :
  let code :=
    Baron.lines
      ["import root_external.some_package.submodule as submodule, root_external.some_package.other_submodule.deep, root_external.some_package.other_submodule as other_submodule";
       "from root_external.some_package.submodule import name as root_name";
       "import os, sys as system"] in
  transform_source Baron.parse fixture_loader fixture_source = Return (code, true)
  ∧ transform_source Baron.parse fixture_loader code = Return (code, false).
Proof.
  apply (rewriting_idempotent Baron.parse fixture_loader fixture_source
           [ImportNode [bare "submodule";
                        {| value := {| name0 := "other_submodule"; names := ["deep"] |};
                           target := "" |}];
            OtherNode Baron.newline;
            FromImportNode {| name0 := "submodule"; names := [] |}
              [{| imported := "name"; imported_as := "root_name" |}];
            OtherNode Baron.newline;
            ImportNode [bare "os";
                        {| value := {| name0 := "sys"; names := [] |};
                           target := "system" |}]]
           [ImportNode [{| value := {| name0 := "root_external";
                                       names := ["some_package"; "submodule"] |};
                           target := "submodule" |};
                        {| value := {| name0 := "root_external.some_package.other_submodule";
                                       names := ["deep"] |};
                           target := "" |};
                        {| value := {| name0 := "root_external";
                                       names := ["some_package"; "other_submodule"] |};
                           target := "other_submodule" |}];
            OtherNode Baron.newline;
            FromImportNode {| name0 := "root_external.some_package.submodule"; names := [] |}
              [{| imported := "name"; imported_as := "root_name" |}];
            OtherNode Baron.newline;
            ImportNode [bare "os";
                        {| value := {| name0 := "sys"; names := [] |};
                           target := "system" |}]]
           true).
  - reflexivity.
  - vm_compute. set_solver.
  - reflexivity.
  - repeat constructor.
  - vm_compute. reflexivity.
  - vm_compute. reflexivity.
Defined.

(** C2, as stated, fails: in a root that holds a module named like the
    namespace, the text of a first pass is rewritten again by a second. *)
Lemma rewriting_twice_differs :
  (ExternalPathFinder.find_spec clash_disk
     (ExternalPathFinder.init "ext" "/project/ext" false) "ext.pkg").2
  = Return (Some {| spec_name := "ext.pkg"; loader := clash_loader; is_package := true |})
  ∧ transform_source Baron.parse clash_loader "import a"
    = Return ("import ext.pkg.a as a", true)
  ∧ transform_source Baron.parse clash_loader "import ext.pkg.a as a"
    = Return ("import ext.pkg.ext.pkg.a as a", true).
Proof. split_and!; vm_compute; reflexivity. Qed.

End RewritingTwice.

(** ** Paths *)

Section Paths.

Implicit Types (d f : string) (a : ascii).

Lemma head_of_no_slash f : Py.contains slash f = false → os_path.head_of f = "".
Proof. destruct f as [|a f]; [done|]. simpl. by intros ->. Qed.

Lemma head_of_app_slash d f :
  Py.contains slash f = false →
  os_path.head_of (d +:+ String slash f) = d +:+ String slash "".
Proof.
  intros Hf. induction d as [|a d IH].
  - rewrite !app_empty_l. simpl. by rewrite head_of_no_slash.
  - rewrite !app_cons. simpl. by rewrite contains_app_char, orb_true_r, IH.
Qed.

Lemma all_slashes_app d a f :
  a ≠ slash → os_path.all_slashes ((d +:+ String a "") +:+ f) = false.
Proof.
  intros Ha. induction d as [|b d IH].
  - rewrite app_empty_l, app_cons. simpl. apply Ascii.eqb_neq in Ha. by rewrite Ha.
  - rewrite !app_cons. simpl. by rewrite IH, andb_false_r.
Qed.

Lemma rstrip_slash_app d a :
  a ≠ slash →
  os_path.rstrip_slash ((d +:+ String a "") +:+ String slash "") = d +:+ String a "".
Proof.
  intros Ha. induction d as [|b d IH].
  - rewrite app_empty_l, app_cons, app_empty_l. simpl.
    apply Ascii.eqb_neq in Ha. by rewrite Ha.
  - rewrite !app_cons. cbn [os_path.rstrip_slash]. rewrite IH.
    by destruct d.
Qed.

(** The directory of a file [f] in the directory [d]. *)
Lemma dirname_of_file d a f :
  a ≠ slash → Py.contains slash f = false →
  os_path.dirname ((d +:+ String a "") +:+ "/" +:+ f) = d +:+ String a "".
Proof.
  intros Ha Hf. unfold os_path.dirname.
  change ("/" +:+ f) with (String slash f).
  rewrite head_of_app_slash by done.
  rewrite all_slashes_app, rstrip_slash_app by done.
  by destruct d.
Qed.

End Paths.

(** ** The claims on the loader's paths *)

Section Locate.

Import PrefixedImportSourceLoader.

(** C5. For a full name made of the external prefix and a dotted rest, the
    candidate is the base directory joined with the components of the rest;
    when it is a directory the path is its [__init__.py] if that exists and
    the directory followed by a separator otherwise; when it is not, the
    path is the candidate followed by [.py].  The call returns that path
    when it exists and raises [ImportError], and nothing else, exactly when
    it does not. *)
Theorem get_filename_resolution (fs : FileSystem) (self : t) (rest : string) :
  let candidate := os_path.join (base_path self) (Py.split dot rest) in
  let init := os_path.join candidate ["__init__.py"] in
  let path :=
    if os_path_isdir fs candidate
    then if os_path_exists fs init then init else candidate +:+ "/"
    else candidate +:+ ".py" in
  let result := get_filename fs self (ext_prefix self +:+ rest) in
  result = (if os_path_exists fs path then Return path else Raise ImportError)
  ∧ (result = Raise ImportError ↔ os_path_exists fs path = false)
  ∧ (∀ e, result = Raise e → e = ImportError).
Proof.
  intros candidate init path result.
  assert (result = if os_path_exists fs path then Return path else Raise ImportError) as H.
  { unfold result, get_filename. rewrite str_drop_app_length.
    fold candidate. fold init. fold path. by destruct (os_path_exists fs path). }
  rewrite H.
  destruct (os_path_exists fs path);
    (split_and!; [done | split; done | intros e He; by inversion He]).
Qed.

Lemma get_filename_resolution_witness :
  PrefixedImportSourceLoader.get_filename (fixture_disk fixture_source) fixture_loader
    "root_external.some_package.main"
  = Return "/project/root_external/some_package/main.py".
Proof.
  exact (proj1 (get_filename_resolution (fixture_disk fixture_source) fixture_loader
                  "some_package.main")).
Defined.

End Locate.

(** ** The finder *)

Section Finder.

Import ExternalPathFinder.

Lemma under_true (self : t) (r fullname : string) :
  under self r fullname = true ↔
  Py.startswith fullname (prefix self) = true ∧ root_of self fullname = r.
Proof.
  unfold under. rewrite andb_true_iff, String.eqb_eq. done.
Qed.

Lemma under_prefix (self self' : t) (r fullname : string) :
  prefix self' = prefix self → under self' r fullname = under self r fullname.
Proof. intros H. unfold under, root_of. by rewrite H. Qed.

Lemma find_spec_prefix fs self fullname :
  prefix (find_spec fs self fullname).1.1 = prefix self.
Proof.
  unfold find_spec. destruct (Py.startswith fullname (prefix self)); [|done].
  destruct (local_submodules self !! _); [done|].
  by destruct (os_listdir fs _).
Qed.

Lemma find_spec_base_path fs self fullname :
  base_path (find_spec fs self fullname).1.1 = base_path self.
Proof.
  unfold find_spec. destruct (Py.startswith fullname (prefix self)); [|done].
  destruct (local_submodules self !! _); [done|].
  by destruct (os_listdir fs _).
Qed.

(** An entry of the cache is never replaced. *)
Lemma find_spec_keeps fs self fullname r (s : gset string) :
  local_submodules self !! r = Some s →
  local_submodules (find_spec fs self fullname).1.1 !! r = Some s.
Proof.
  intros Hr. unfold find_spec. destruct (Py.startswith fullname (prefix self)); [|done].
  destruct (local_submodules self !! hd "" _) eqn:E; [done|].
  destruct (os_listdir fs _); [|done]. cbn. rewrite lookup_insert_ne; [done|].
  intros Heq. rewrite Heq in E. congruence.
Qed.

(** A request for a cached root lists nothing and returns the cached set. *)
Lemma find_spec_cached fs self fullname r (s : gset string) :
  under self r fullname = true →
  local_submodules self !! r = Some s →
  find_spec fs self fullname = (self, [], Return (Some (make_spec self fullname r s))).
Proof.
  intros [Hpre Hroot]%under_true Hr. unfold find_spec. rewrite Hpre.
  fold (root_of self fullname). by rewrite Hroot, Hr.
Qed.

(** A request for a root that is not cached calls [os.listdir] once, on the
    root's directory, and caches the set when the call returns. *)
Lemma find_spec_uncached fs self fullname r :
  under self r fullname = true →
  local_submodules self !! r = None →
  let path := os_path.join (base_path self) [r] in
  find_spec fs self fullname
  = match os_listdir fs path with
    | Raise e => (self, [Listdir path false], Raise e)
    | Return items =>
        let self' :=
          set_local_submodules self
            (<[r := local_names fs path items]> (local_submodules self)) in
        (self', [Listdir path true],
         Return (Some (make_spec self' fullname r (local_names fs path items))))
    end.
Proof.
  intros [Hpre Hroot]%under_true Hr. unfold find_spec. rewrite Hpre.
  fold (root_of self fullname). by rewrite Hroot, Hr.
Qed.

(** After a request that returned, the root is cached with the set of the
    loader that was returned. *)
Lemma find_spec_ok_cached fs self fullname r :
  under self r fullname = true →
  is_ok (find_spec fs self fullname).2 = true →
  ∃ s, local_submodules (find_spec fs self fullname).1.1 !! r = Some s
       ∧ returned_locals
           {| req_fullname := fullname;
              req_events := (find_spec fs self fullname).1.2;
              req_result := (find_spec fs self fullname).2 |} = Some s.
Proof.
  intros Hu Hok. destruct (local_submodules self !! r) as [s|] eqn:Hr.
  - rewrite (find_spec_cached _ _ _ _ _ Hu Hr). by exists s.
  - rewrite (find_spec_uncached _ _ _ _ Hu Hr) in *. cbn zeta in *.
    destruct (os_listdir fs _) as [items|e]; [|done].
    eexists. split; [|done]. cbn. by rewrite lookup_insert_eq.
Qed.

End Finder.

(** ** Sequences of requests *)

Section Requests.

Import ExternalPathFinder.

Lemma find_spec_listed_cached fs self fullname r :
  under self r fullname = true →
  existsb is_listing (find_spec fs self fullname).1.2 = true →
  ∃ s, local_submodules (find_spec fs self fullname).1.1 !! r = Some s.
Proof.
  intros Hu Hl. destruct (local_submodules self !! r) as [s|] eqn:Hr.
  - by rewrite (find_spec_cached _ _ _ _ _ Hu Hr) in Hl.
  - rewrite (find_spec_uncached _ _ _ _ Hu Hr) in *. cbn zeta in *.
    destruct (os_listdir fs _) as [items|e]; [|done].
    eexists. cbn. by rewrite lookup_insert_eq.
Qed.

Lemma run_cons self fs fullname calls :
  (run self ((fs, fullname) :: calls)).2
  = {| req_fullname := fullname;
       req_events := (find_spec fs self fullname).1.2;
       req_result := (find_spec fs self fullname).2 |}
    :: (run (find_spec fs self fullname).1.1 calls).2.
Proof.
  cbn [run]. destruct (find_spec fs self fullname) as [[self' ev] res]. cbn [fst snd].
  by destruct (run self' calls).
Qed.

Lemma run_cons_finder self fs fullname calls :
  (run self ((fs, fullname) :: calls)).1
  = (run (find_spec fs self fullname).1.1 calls).1.
Proof.
  cbn [run]. destruct (find_spec fs self fullname) as [[self' ev] res]. cbn [fst snd].
  by destruct (run self' calls).
Qed.

Lemma run_base_path calls : ∀ self, base_path (run self calls).1 = base_path self.
Proof.
  induction calls as [|[fs fullname] calls IH]; intros self; [done|].
  by rewrite run_cons_finder, IH, find_spec_base_path.
Qed.

(** Once a root is cached, every request for it lists nothing and returns
    the cached set. *)
Lemma run_cached calls : ∀ self r (s : gset string),
  local_submodules self !! r = Some s →
  Forall (fun q => under self r (req_fullname q) = true →
                   req_events q = [] ∧ returned_locals q = Some s)
         (run self calls).2.
Proof.
  induction calls as [|[fs fullname] calls IH]; intros self r s Hr.
  - by apply Forall_nil.
  - rewrite run_cons. apply Forall_cons. split.
    + cbn [req_fullname]. intros Hu. by rewrite (find_spec_cached _ _ _ _ _ Hu Hr).
    + eapply Forall_impl; [apply (IH _ r s); by apply find_spec_keeps|].
      intros q Hq Hu. apply Hq. by rewrite (under_prefix self) by apply find_spec_prefix.
Qed.

Lemma listings_prefix self self' r log :
  prefix self' = prefix self → listings self' r log = listings self r log.
Proof.
  intros H. unfold listings. f_equal. apply List.filter_ext. intros q.
  by rewrite (under_prefix _ _ _ _ H).
Qed.

Lemma listings_cached calls self r (s : gset string) :
  local_submodules self !! r = Some s → listings self r (run self calls).2 = 0.
Proof.
  intros Hr. pose proof (run_cached calls self r s Hr) as H.
  unfold listings. induction H as [|q log Hq _ IH]; [done|].
  cbn [List.filter]. destruct (under self r (req_fullname q)) eqn:Hu; [|done].
  destruct (Hq eq_refl) as [Hev _]. unfold listed. by rewrite Hev.
Qed.

Lemma listings_cons self r q log :
  listings self r (q :: log)
  = (if under self r (req_fullname q) && listed q then 1 else 0) + listings self r log.
Proof.
  unfold listings. cbn [List.filter].
  by destruct (under self r (req_fullname q) && listed q).
Qed.

Lemma listings_le_1 calls : ∀ self r, listings self r (run self calls).2 ≤ 1.
Proof.
  induction calls as [|[fs fullname] calls IH]; intros self r.
  - cbn. lia.
  - rewrite run_cons, listings_cons. cbn [req_fullname].
    rewrite <- (listings_prefix self _ r _ (find_spec_prefix fs self fullname)).
    specialize (IH (find_spec fs self fullname).1.1 r).
    destruct (under self r fullname) eqn:Hu; [|simpl; lia].
    unfold listed at 1. cbn [req_events andb].
    destruct (existsb is_listing _) eqn:Hl; [|simpl; lia].
    destruct (find_spec_listed_cached _ _ _ _ Hu Hl) as [s Hs].
    by rewrite (listings_cached _ _ _ _ Hs).
Qed.

Lemma run_after_ok calls : ∀ self r i j qi qj,
  i < j →
  (run self calls).2 !! i = Some qi →
  (run self calls).2 !! j = Some qj →
  under self r (req_fullname qi) = true →
  under self r (req_fullname qj) = true →
  is_ok (req_result qi) = true →
  req_events qj = [] ∧ returned_locals qj = returned_locals qi
  ∧ is_Some (returned_locals qi).
Proof.
  induction calls as [|[fs fullname] calls IH]; intros self r i j qi qj Hij Hi Hj Hui Huj Hok.
  - done.
  - rewrite run_cons in Hi, Hj. destruct j as [|j]; [lia|]. cbn in Hj.
    destruct i as [|i].
    + cbn in Hi. inversion Hi; subst qi. clear Hi. cbn in Hui, Hok.
      destruct (find_spec_ok_cached _ _ _ _ Hui Hok) as (s & Hs & Hret).
      pose proof (run_cached calls _ r s Hs) as Hall.
      rewrite Forall_lookup in Hall. destruct (Hall j qj Hj) as [Hev Hrj].
      { by rewrite (under_prefix self) by apply find_spec_prefix. }
      rewrite Hret. by split_and!.
    + cbn in Hi. apply (IH (find_spec fs self fullname).1.1 r i j qi qj); try done;
        [lia| |]; by rewrite (under_prefix self) by apply find_spec_prefix.
Qed.

(** C4, as the code has it.  In any sequence of requests, each against the
    disk of its moment, at most one request for a root gets a listing of
    its directory; a request for a root that is not cached calls
    [os.listdir] once, on the root's directory; when that call raises,
    nothing is cached, the finder is as before and the error is the result;
    and after a request for the root has returned, every later request for
    it calls nothing and returns a loader with the same local-name set. *)
Theorem resolver_lists_once (self : t) (calls : list (FileSystem * string)) (r : string) :
  let log := (run self calls).2 in
  listings self r log ≤ 1
  ∧ (∀ fs fullname rest,
       calls = (fs, fullname) :: rest →
       under self r fullname = true →
       local_submodules self !! r = None →
       ∃ q, log !! 0 = Some q
            ∧ req_events q
              = [Listdir (os_path.join (base_path self) [r])
                   (is_ok (os_listdir fs (os_path.join (base_path self) [r])))])
  ∧ (∀ i j qi qj,
       i < j → log !! i = Some qi → log !! j = Some qj →
       under self r (req_fullname qi) = true →
       under self r (req_fullname qj) = true →
       is_ok (req_result qi) = true →
       req_events qj = [] ∧ returned_locals qj = returned_locals qi
       ∧ is_Some (returned_locals qi))
  ∧ (∀ fs fullname e,
       under self r fullname = true →
       local_submodules self !! r = None →
       os_listdir fs (os_path.join (base_path self) [r]) = Raise e →
       find_spec fs self fullname
       = (self, [Listdir (os_path.join (base_path self) [r]) false], Raise e)).
Proof.
  intros log. split_and!.
  - apply listings_le_1.
  - intros fs fullname rest -> Hu Hr. unfold log. rewrite run_cons.
    eexists. split; [done|]. cbn [req_events].
    rewrite (find_spec_uncached _ _ _ _ Hu Hr). cbn zeta.
    by destruct (os_listdir fs _).
  - apply run_after_ok.
  - intros fs fullname e Hu Hr Hraise.
    rewrite (find_spec_uncached _ _ _ _ Hu Hr). cbn zeta. by rewrite Hraise.
Qed.

Lemma resolver_lists_once_witness :
  ∃ q1 q2,
    (run fixture_finder fixture_calls).2 !! 1 = Some q1
    ∧ (run fixture_finder fixture_calls).2 !! 2 = Some q2
    ∧ req_events q1 = [Listdir "/project/root_external/some_package" true]
    ∧ req_events q2 = []
    ∧ returned_locals q2 = returned_locals q1.
Proof.
  destruct (resolver_lists_once fixture_finder fixture_calls "some_package")
    as (_ & _ & H & _).
  eexists _, _. split; [reflexivity|]. split; [reflexivity|]. split; [reflexivity|].
  edestruct (H 1 2) as (Hev & Hret & _);
    [lia | reflexivity | reflexivity | reflexivity | reflexivity | reflexivity |].
  split; [exact Hev | exact Hret].
Defined.

(** C4, as stated, fails: the first request for a root meets a disk without
    its directory, [os.listdir] raises and nothing is cached; the second
    request for the same root calls [os.listdir] on the same directory
    again.  So a later request does not always reuse the cache, and the
    directory of one root is asked for more than once. *)
Lemma resolver_lists_again_after_failure :
  (∃ q0 q1,
     (run fixture_finder fixture_calls).2 !! 0 = Some q0
     ∧ (run fixture_finder fixture_calls).2 !! 1 = Some q1
     ∧ under fixture_finder "some_package" (req_fullname q0) = true
     ∧ under fixture_finder "some_package" (req_fullname q1) = true
     ∧ req_events q0 = [Listdir "/project/root_external/some_package" false]
     ∧ req_events q1 = [Listdir "/project/root_external/some_package" true])
  ∧ ¬ (∀ self calls r i j qi qj,
         i < j →
         (run self calls).2 !! i = Some qi →
         (run self calls).2 !! j = Some qj →
         under self r (req_fullname qi) = true →
         under self r (req_fullname qj) = true →
         req_events qj = []).
Proof.
  split.
  - eexists _, _. split_and!; reflexivity.
  - intros H.
    specialize (H fixture_finder fixture_calls "some_package" 0 1 _ _
                  (Nat.lt_0_succ 0) eq_refl eq_refl eq_refl eq_refl).
    vm_compute in H. discriminate H.
Qed.

End Requests.

(** ** The claims on resolution *)

Section Resolution.

Import ExternalPathFinder.

Lemma startswith_own_prefix (s : string) : Py.startswith s (s +:+ ".") = false.
Proof.
  unfold Py.startswith. induction s as [|a s IH]; [done|].
  rewrite app_cons. simpl. by destruct (ascii_dec a a).
Qed.

(** C6, as the code has it.  For a name under the watched prefix the
    resolution raises exactly when the addressed root is not cached and
    listing its directory raises, and then with the error of the listing:
    a missing root directory fails the resolution itself.  When the
    resolution returns a specification, a module file that does not exist
    surfaces later, as the [ImportError] of the loader's path resolution. *)
Theorem find_spec_raises_iff (fs : FileSystem) (self : t) (fullname : string)
    (e : Exception) :
  Py.startswith fullname (prefix self) = true →
  let r := root_of self fullname in
  ((find_spec fs self fullname).2 = Raise e
   ↔ local_submodules self !! r = None
     ∧ os_listdir fs (os_path.join (base_path self) [r]) = Raise e)
  ∧ (∀ spec fs',
       (find_spec fs self fullname).2 = Return (Some spec) →
       let candidate :=
         os_path.join (base_path self)
           (Py.split dot (Py.drop (String.length (prefix self)) fullname)) in
       let init := os_path.join candidate ["__init__.py"] in
       let path :=
         if os_path_isdir fs' candidate
         then if os_path_exists fs' init then init else candidate +:+ "/"
         else candidate +:+ ".py" in
       os_path_exists fs' path = false →
       PrefixedImportSourceLoader.get_filename fs' (loader spec) fullname
       = Raise ImportError).
Proof.
  intros Hpre r. assert (under self r fullname = true) as Hu.
  { apply under_true. by split. }
  split.
  - destruct (local_submodules self !! r) as [s|] eqn:Hr.
    + rewrite (find_spec_cached _ _ _ _ _ Hu Hr). split; [done|]. by intros [? _].
    + rewrite (find_spec_uncached _ _ _ _ Hu Hr). cbn zeta.
      destruct (os_listdir fs _) as [items|e']; cbn [snd].
      * split; [done|]. by intros [_ ?].
      * split; [by intros [= ->]|]. by intros [_ [= ->]].
  - intros spec fs' Hspec candidate init path Hmissing.
    assert (PrefixedImportSourceLoader.ext_prefix (loader spec) = prefix self
            ∧ PrefixedImportSourceLoader.base_path (loader spec) = base_path self)
      as [Hext Hbase].
    { destruct (local_submodules self !! r) as [s|] eqn:Hr.
      - rewrite (find_spec_cached _ _ _ _ _ Hu Hr) in Hspec. by inversion Hspec.
      - rewrite (find_spec_uncached _ _ _ _ Hu Hr) in Hspec. cbn zeta in Hspec.
        destruct (os_listdir fs _) as [items|e']; [|done]. by inversion Hspec. }
    unfold PrefixedImportSourceLoader.get_filename. rewrite Hext, Hbase.
    fold candidate. fold init. fold path. by rewrite Hmissing.
Qed.

Lemma find_spec_raises_iff_witness :
  (find_spec empty_disk fixture_finder "root_external.some_package.main").2
  = Raise FileNotFoundError.
Proof.
  apply (find_spec_raises_iff empty_disk fixture_finder
           "root_external.some_package.main" FileNotFoundError); [reflexivity|].
  split; reflexivity.
Defined.

(** C6, as stated, fails: the directory of the root is missing and the
    resolution itself raises. *)
Lemma find_spec_raises_on_missing_root :
  Py.startswith "root_external.missing.module" (prefix fixture_finder) = true
  ∧ local_submodules fixture_finder = ∅
  ∧ find_spec empty_disk fixture_finder "root_external.missing.module"
    = (fixture_finder, [Listdir "/project/root_external/missing" false],
       Raise FileNotFoundError).
Proof. split_and!; reflexivity. Qed.

(** C9, as the code has it.  A full name that does not start with the
    watched prefix (the bare namespace name among them) gets no opinion,
    and the finder is unchanged.  A full name that starts with it gets a
    module specification for that name marked as a package whenever its
    root is cached or its directory can be listed; otherwise the error of
    the listing is raised and there is no specification. *)
Theorem find_spec_opinion (fs : FileSystem) (self : t) (fullname : string) :
  (Py.startswith fullname (prefix self) = false →
   find_spec fs self fullname = (self, [], Return None))
  ∧ (Py.startswith fullname (prefix self) = true →
     is_Some (local_submodules self !! root_of self fullname)
     ∨ is_ok (os_listdir fs (os_path.join (base_path self) [root_of self fullname])) = true →
     ∃ spec,
       (find_spec fs self fullname).2 = Return (Some spec)
       ∧ is_package spec = true
       ∧ spec_name spec = fullname)
  ∧ (∀ name base_path rewrite,
       find_spec fs (init name base_path rewrite) name
       = (init name base_path rewrite, [], Return None))
  ∧ (∀ e,
       Py.startswith fullname (prefix self) = true →
       local_submodules self !! root_of self fullname = None →
       os_listdir fs (os_path.join (base_path self) [root_of self fullname]) = Raise e →
       (find_spec fs self fullname).2 = Raise e).
Proof.
  split_and!.
  - intros Hpre. unfold find_spec. by rewrite Hpre.
  - intros Hpre Hcan. assert (under self (root_of self fullname) fullname = true) as Hu.
    { apply under_true. by split. }
    destruct (local_submodules self !! root_of self fullname) as [s|] eqn:Hr.
    + rewrite (find_spec_cached _ _ _ _ _ Hu Hr). by eexists.
    + rewrite (find_spec_uncached _ _ _ _ Hu Hr). cbn zeta.
      destruct Hcan as [[? ?]|Hok]; [done|].
      destruct (os_listdir fs _) as [items|e']; [|done]. by eexists.
  - intros name bp rw. unfold find_spec. cbn [init prefix].
    by rewrite startswith_own_prefix.
  - intros e Hpre Hr Hraise.
    assert (under self (root_of self fullname) fullname = true) as Hu.
    { apply under_true. by split. }
    rewrite (find_spec_uncached _ _ _ _ Hu Hr). cbn zeta. by rewrite Hraise.
Qed.

Lemma find_spec_opinion_witness :
  ∃ spec,
    (find_spec (fixture_disk fixture_source) fixture_finder
       "root_external.some_package.main").2 = Return (Some spec)
    ∧ is_package spec = true
    ∧ spec_name spec = "root_external.some_package.main".
Proof.
  apply (find_spec_opinion (fixture_disk fixture_source) fixture_finder
           "root_external.some_package.main"); [reflexivity|].
  right. reflexivity.
Defined.

(** C9, as stated, fails: a name under the watched prefix whose root
    directory cannot be listed gets no specification. *)
Lemma find_spec_not_always_spec :
  ¬ (∀ fs self fullname,
       Py.startswith fullname (prefix self) = true →
       ∃ spec, (find_spec fs self fullname).2 = Return (Some spec)
               ∧ is_package spec = true).
Proof.
  intros H.
  destruct (H empty_disk fixture_finder "root_external.models.resnet" eq_refl)
    as (spec & Hspec & _).
  vm_compute in Hspec. discriminate Hspec.
Qed.

(** C10. The base directory of a finder is the directory part of the given
    path when the path ends in [.py], which for a file [f] in a directory
    [d] is [d], and the given path otherwise; a resolution request keeps
    it, lists the root under it, and hands it to the loader. *)
Theorem init_base_path (name path : string) (rewrite : bool) :
  let self := init name path rewrite in
  base_path self = (if Py.endswith path ".py" then os_path.dirname path else path)
  ∧ (∀ d a f,
       path = (d +:+ String a "") +:+ "/" +:+ f →
       a ≠ slash → Py.contains slash f = false → Py.endswith path ".py" = true →
       base_path self = d +:+ String a "")
  ∧ (∀ calls, base_path (run self calls).1 = base_path self)
  ∧ (∀ fs (finder : t) fullname,
       base_path (find_spec fs finder fullname).1.1 = base_path finder
       ∧ (∀ ev, ev ∈ (find_spec fs finder fullname).1.2 →
            ∃ ok, ev = Listdir (os_path.join (base_path finder)
                                  [root_of finder fullname]) ok)
       ∧ (∀ spec, (find_spec fs finder fullname).2 = Return (Some spec) →
            PrefixedImportSourceLoader.base_path (loader spec) = base_path finder)).
Proof.
  intros self. split_and!.
  - done.
  - intros d a f -> Ha Hf Hpy. cbn [self init base_path]. rewrite Hpy.
    by apply dirname_of_file.
  - intros calls. apply run_base_path.
  - intros fs finder fullname. split_and!.
    + apply find_spec_base_path.
    + unfold find_spec. fold (root_of finder fullname).
      destruct (Py.startswith fullname (prefix finder)); [|by intros ? ?%elem_of_nil].
      destruct (local_submodules finder !! _); [by intros ? ?%elem_of_nil|].
      destruct (os_listdir fs _); intros ev ->%list_elem_of_singleton; by eexists.
    + unfold find_spec. fold (root_of finder fullname).
      destruct (Py.startswith fullname (prefix finder)); [|done].
      destruct (local_submodules finder !! _); [by intros ? [= <-]|].
      destruct (os_listdir fs _); [by intros ? [= <-]|done].
Qed.

Lemma init_base_path_witness :
  base_path (init "root_external" "/project/root_external/__init__.py" true)
  = "/project/root_external".
Proof.
  apply (init_base_path "root_external" "/project/root_external/__init__.py" true)
    with (d := "/project/root_externa") (a := "l"%char) (f := "__init__.py");
    [reflexivity | discriminate | reflexivity | reflexivity].
Defined.

End Resolution.

(** * Further properties of the module *)

(** ** More on strings *)

Section MoreStrings.

Implicit Types (s p q : string) (a b : ascii).

Lemma app_empty_r s : s +:+ "" = s.
Proof. induction s as [|a s IH]; [done|]. by rewrite app_cons, IH. Qed.

Lemma length_app_str s p : String.length (s +:+ p) = String.length s + String.length p.
Proof. induction s as [|a s IH]; [done|]. rewrite app_cons. simpl. by rewrite IH. Qed.

Lemma str_take_app_length s p : Py.take (String.length s) (s +:+ p) = s.
Proof. induction s as [|a s IH]; [by destruct p|]. rewrite app_cons. simpl. by rewrite IH. Qed.

Lemma take_drop_str n s : Py.take n s +:+ Py.drop n s = s.
Proof.
  revert s. induction n as [|n IH]; intros s; [done|].
  destruct s as [|a s]; [done|]. simpl. by rewrite app_cons, IH.
Qed.

Lemma startswith_app s p : Py.startswith (s +:+ p) s = true.
Proof.
  unfold Py.startswith. induction s as [|a s IH]; [by destruct p|].
  rewrite app_cons. simpl. destruct (ascii_dec a a); [exact IH | done].
Qed.

Lemma endswith_app p s : Py.endswith (p +:+ s) s = true.
Proof.
  unfold Py.endswith. rewrite length_app_str.
  replace (String.length p + String.length s - String.length s) with (String.length p)
    by lia.
  rewrite str_drop_app_length, String.eqb_refl, andb_true_r.
  apply Nat.leb_le. lia.
Qed.

Lemma endswith_inv s q :
  Py.endswith s q = true → ∃ p, s = p +:+ q.
Proof.
  unfold Py.endswith. intros [_ Heq%String.eqb_eq]%andb_true_iff.
  exists (Py.take (String.length s - String.length q) s).
  transitivity (Py.take (String.length s - String.length q) s
                +:+ Py.drop (String.length s - String.length q) s).
  - by rewrite take_drop_str.
  - by rewrite Heq.
Qed.

Lemma app_inj_last s p a b :
  s +:+ String a "" = p +:+ String b "" → s = p ∧ a = b.
Proof.
  revert p. induction s as [|c s IH]; intros [|d p] H.
  - by inversion H.
  - rewrite app_empty_l, app_cons in H. inversion H as [[Hc Hp]]. by destruct p.
  - rewrite app_empty_l, app_cons in H. inversion H as [[Hc Hs]]. by destruct s.
  - rewrite !app_cons in H. inversion H as [[Hc Hs]].
    destruct (IH p Hs) as [-> ->]. done.
Qed.

Lemma app_eq_self s p : s +:+ p = p → s = "".
Proof.
  intros H. assert (String.length (s +:+ p) = String.length p) as Hlen by by rewrite H.
  rewrite length_app_str in Hlen. destruct s; [done|]. simpl in Hlen. lia.
Qed.

Lemma drop_last3_py s : Py.drop_last3 (s +:+ ".py") = s.
Proof.
  unfold Py.drop_last3. rewrite length_app_str. simpl String.length.
  replace (String.length s + 3 - 3) with (String.length s) by lia.
  apply str_take_app_length.
Qed.

(** A path that ends with a separator does not end with [.py]. *)
Lemma endswith_slash_not_py s : Py.endswith (s +:+ "/") ".py" = false.
Proof.
  destruct (Py.endswith (s +:+ "/") ".py") eqn:E; [|done].
  apply endswith_inv in E as [p Hp].
  change (p +:+ ".py") with (p +:+ (".p" +:+ String "y" "")) in Hp.
  rewrite <- app_assoc_str in Hp.
  by apply app_inj_last in Hp as [_ ?].
Qed.

(** The pieces of a split hold no separator. *)
Lemma split_plain_pieces s : Forall plain_name (Py.split dot s).
Proof.
  induction s as [|a s IH]; [by repeat constructor|].
  rewrite split_cons. pose proof (split_nonempty dot s).
  destruct (Py.split dot s) as [|x xs]; [done|].
  apply Forall_cons in IH as [Hx Hxs].
  destruct (Ascii.eqb a dot) eqn:E.
  - by repeat (apply Forall_cons; split).
  - apply Forall_cons. split; [|done]. unfold plain_name in *. simpl. by rewrite E.
Qed.

End MoreStrings.

(** ** The local names of a root *)

Section LocalNames.

Import ExternalPathFinder.

(** X1. A name is in the set built from a listing exactly when it is a
    listed entry that is a directory, or when the entry of that name
    followed by [.py] is listed and is not a directory: a directory keeps
    its whole name, a file loses the extension, and any other file gives
    nothing. *)
Theorem local_names_iff (fs : FileSystem) (path : string) (items : list string)
    (n : string) :
  n ∈ local_names fs path items
  ↔ (n ∈ items ∧ os_path_isdir fs (os_path.join path [n]) = true)
    ∨ ((n +:+ ".py") ∈ items
       ∧ os_path_isdir fs (os_path.join path [n +:+ ".py"]) = false).
Proof.
  unfold local_names. rewrite elem_of_list_to_set, list_elem_of_omap. split.
  - intros (item & Hitem & Hsome).
    destruct (os_path_isdir fs (os_path.join path [item])) eqn:Hdir.
    + simpl in Hsome. inversion Hsome; subst. by left.
    + simpl in Hsome. destruct (Py.endswith item ".py") eqn:Hpy; [|done].
      inversion Hsome; subst. apply endswith_inv in Hpy as [p ->].
      rewrite drop_last3_py. by right.
  - intros [[Hitem Hdir]|[Hitem Hdir]].
    + exists n. split; [done|]. by rewrite Hdir.
    + exists (n +:+ ".py"). split; [done|].
      by rewrite Hdir, endswith_app, drop_last3_py.
Qed.

End LocalNames.

(** ** The registration and the cache *)

Section Registration.

Import ExternalPathFinder.

Lemma find_spec_step fs self fullname :
  let self' := (find_spec fs self fullname).1.1 in
  name self' = name self
  ∧ rewrite self' = rewrite self
  ∧ local_submodules self ⊆ local_submodules self'
  ∧ ∀ r, is_Some (local_submodules self' !! r) →
         is_Some (local_submodules self !! r)
         ∨ (under self r fullname = true
            ∧ is_ok (os_listdir fs (os_path.join (base_path self) [r])) = true).
Proof.
  unfold find_spec. fold (root_of self fullname).
  destruct (Py.startswith fullname (prefix self)) eqn:Hpre; [|by split_and!; auto].
  destruct (local_submodules self !! root_of self fullname) eqn:Hr; [by split_and!; auto|].
  destruct (os_listdir fs _) as [items|e] eqn:Hl; [|by split_and!; auto].
  cbn [fst snd set_local_submodules ExternalPathFinder.name ExternalPathFinder.rewrite
    local_submodules].
  split_and!; [done|done|by apply insert_subseteq|].
  intros r Hsome. destruct (decide (root_of self fullname = r)) as [<-|Hne].
  - right. rewrite Hl. split; [|done]. apply under_true. by split.
  - left. by rewrite lookup_insert_ne in Hsome.
Qed.

(** X2. Over any sequence of requests the finder keeps its name, prefix,
    base directory and rewrite flag; the cache only grows, an entry is never
    removed or replaced; and a root enters the cache only through a request
    that addressed it under the prefix when its directory could be listed. *)
Theorem run_keeps_registration (self : t) (calls : list (FileSystem * string)) :
  let self' := (run self calls).1 in
  name self' = name self
  ∧ prefix self' = prefix self
  ∧ base_path self' = base_path self
  ∧ rewrite self' = rewrite self
  ∧ local_submodules self ⊆ local_submodules self'
  ∧ ∀ r, is_Some (local_submodules self' !! r) →
         is_Some (local_submodules self !! r)
         ∨ ∃ fs fullname,
             (fs, fullname) ∈ calls
             ∧ under self r fullname = true
             ∧ is_ok (os_listdir fs (os_path.join (base_path self) [r])) = true.
Proof.
  revert self. induction calls as [|[fs fullname] calls IH]; intros self.
  - cbn. split_and!; auto.
  - cbn zeta. rewrite run_cons_finder.
    destruct (IH (find_spec fs self fullname).1.1)
      as (Hname & Hprefix & Hbase & Hrw & Hsub & Hnew).
    destruct (find_spec_step fs self fullname) as (Hname1 & Hrw1 & Hsub1 & Hnew1).
    pose proof (find_spec_prefix fs self fullname) as Hprefix1.
    pose proof (find_spec_base_path fs self fullname) as Hbase1.
    split_and!; [congruence..| by etrans |].
    intros r Hsome. destruct (Hnew r Hsome) as [Hold|(fs' & fn' & Hin & Hu & Hok)].
    + destruct (Hnew1 r Hold) as [?|[Hu Hok]]; [by left|].
      right. exists fs, fullname. split; [apply list_elem_of_here|done].
    + right. exists fs', fn'. split; [by apply list_elem_of_further|].
      rewrite <- (under_prefix self _ r fn' Hprefix1). by rewrite <- Hbase1.
Qed.

Lemma root_of_plain (self : t) (fullname : string) : plain_name (root_of self fullname).
Proof.
  unfold root_of.
  pose proof (split_plain_pieces (Py.drop (String.length (prefix self)) fullname)) as H.
  pose proof (split_nonempty dot (Py.drop (String.length (prefix self)) fullname)).
  destruct (Py.split dot _); [done|]. by apply Forall_cons in H as [? _].
Qed.

(** X3. Every name made of the prefix, a root without a dot and any dotted
    rest addresses that root, as the name of the root itself does; and the
    root a full name addresses never holds a dot. *)
Theorem submodules_share_root (self : t) (r rest : string) :
  plain_name r →
  under self r (prefix self +:+ r) = true
  ∧ under self r (prefix self +:+ r +:+ "." +:+ rest) = true
  ∧ ∀ fullname, plain_name (root_of self fullname).
Proof.
  intros Hr. split_and!.
  - apply under_true. split; [apply startswith_app|].
    unfold root_of. by rewrite str_drop_app_length, split_plain.
  - apply under_true. split; [apply startswith_app|].
    unfold root_of. rewrite str_drop_app_length.
    change ("." +:+ rest) with (String dot rest). by rewrite split_app_plain.
  - apply root_of_plain.
Qed.

Lemma submodules_share_root_witness :
  under fixture_finder "some_package" "root_external.some_package" = true
  ∧ under fixture_finder "some_package" "root_external.some_package.other_submodule.deep"
    = true.
Proof.
  destruct (submodules_share_root fixture_finder "some_package" "other_submodule.deep")
    as (H1 & H2 & _); [reflexivity|].
  split; [exact H1 | exact H2].
Defined.

Lemma spec_loader_fields fs self fullname spec :
  (find_spec fs self fullname).2 = Return (Some spec) →
  Py.startswith fullname (prefix self) = true
  ∧ ∃ s, spec
         = {| spec_name := fullname;
              loader := PrefixedImportSourceLoader.init s (prefix self)
                          (prefix self +:+ root_of self fullname +:+ ".")
                          (base_path self) (rewrite self);
              is_package := true |}
         ∧ local_submodules (find_spec fs self fullname).1.1 !! root_of self fullname
           = Some s.
Proof.
  intros Hspec.
  assert (Py.startswith fullname (prefix self) = true) as Hpre.
  { destruct (Py.startswith fullname (prefix self)) eqn:E; [done|].
    unfold find_spec in Hspec. by rewrite E in Hspec. }
  split; [done|].
  assert (under self (root_of self fullname) fullname = true) as Hu
    by (apply under_true; by split).
  destruct (local_submodules self !! root_of self fullname) as [s|] eqn:Hr.
  - rewrite (find_spec_cached _ _ _ _ _ Hu Hr) in *. inversion Hspec. by exists s.
  - rewrite (find_spec_uncached _ _ _ _ Hu Hr) in *. cbn zeta in *.
    destruct (os_listdir fs _) as [items|e']; [|done]. inversion Hspec.
    eexists. split; [done|]. cbn. by rewrite lookup_insert_eq.
Qed.

(** X4. The loader of a returned specification carries the finder's prefix
    as external prefix, that prefix followed by the root and a dot as whole
    prefix, the finder's base directory and rewrite flag, and the cached set
    of the root; every name the loader qualifies with its whole prefix is
    again under the finder's prefix and addresses the same root. *)
Theorem loader_of_spec (fs : FileSystem) (self : t) (fullname : string)
    (spec : ModuleSpec) :
  (find_spec fs self fullname).2 = Return (Some spec) →
  let r := root_of self fullname in
  let ld := loader spec in
  spec_name spec = fullname
  ∧ PrefixedImportSourceLoader.ext_prefix ld = prefix self
  ∧ PrefixedImportSourceLoader.whole_prefix ld = prefix self +:+ r +:+ "."
  ∧ PrefixedImportSourceLoader.base_path ld = base_path self
  ∧ PrefixedImportSourceLoader.rewrite ld = rewrite self
  ∧ local_submodules (find_spec fs self fullname).1.1 !! r
    = Some (PrefixedImportSourceLoader.local_globals ld)
  ∧ ∀ x, under self r (PrefixedImportSourceLoader.whole_prefix ld +:+ x) = true.
Proof.
  intros Hspec r ld.
  destruct (spec_loader_fields _ _ _ _ Hspec) as (Hpre & s & -> & Hc).
  subst ld. cbn [loader spec_name PrefixedImportSourceLoader.init
    PrefixedImportSourceLoader.ext_prefix PrefixedImportSourceLoader.whole_prefix
    PrefixedImportSourceLoader.base_path PrefixedImportSourceLoader.rewrite
    PrefixedImportSourceLoader.local_globals].
  split_and!; try done.
  intros x. apply under_true. rewrite !app_assoc_str. split; [apply startswith_app|].
  unfold root_of. rewrite str_drop_app_length.
  change ("." +:+ x) with (String dot x). rewrite split_app_plain; [done|].
  apply root_of_plain.
Qed.

Lemma loader_of_spec_witness :
  ∃ spec,
    (find_spec (fixture_disk fixture_source) fixture_finder
       "root_external.some_package.main").2 = Return (Some spec)
    ∧ PrefixedImportSourceLoader.whole_prefix (loader spec) = "root_external.some_package."
    ∧ under fixture_finder "some_package"
        (PrefixedImportSourceLoader.whole_prefix (loader spec) +:+ "submodule") = true.
Proof.
  eexists. split; [reflexivity|].
  edestruct (loader_of_spec (fixture_disk fixture_source) fixture_finder
               "root_external.some_package.main") as (_ & _ & HW & _ & _ & _ & Hre);
    [reflexivity|].
  split; [exact HW | exact (Hre "submodule")].
Defined.

End Registration.

(** ** Locating and loading *)

Section Loading.

Import PrefixedImportSourceLoader.

Lemma join2_app_py (p x : string) :
  os_path.join2 p (x +:+ ".py") = os_path.join2 p x +:+ ".py".
Proof.
  unfold os_path.join2.
  assert (Py.startswith (x +:+ ".py") "/" = Py.startswith x "/") as Hs.
  { destruct x as [|a x]; [done|]. rewrite app_cons. unfold Py.startswith.
    cbn [String.prefix]. destruct (ascii_dec "/"%char a); [|done]. by destruct x. }
  rewrite Hs. destruct (Py.startswith x "/"); [done|].
  destruct (String.eqb p "" || Py.endswith p "/"); by rewrite !app_assoc_str.
Qed.

Lemma join_init_py (candidate : string) :
  Py.endswith (os_path.join candidate ["__init__.py"]) ".py" = true.
Proof.
  unfold os_path.join. cbn [fold_left].
  change "__init__.py" with ("__init__" +:+ ".py").
  rewrite join2_app_py. apply endswith_app.
Qed.

(** X5. For a loader returned by the finder and a name [x] without a dot,
    the name the rewriting qualifies, whole prefix followed by [x], is
    located in the directory the finder lists for the root: at [x.py] there
    when [x] is not a directory and that file exists, at the [__init__.py]
    of [x] when [x] is a directory that has one. *)
Theorem qualified_name_located (fs fs' : FileSystem) (self : ExternalPathFinder.t)
    (fullname x : string) (spec : ModuleSpec) :
  (ExternalPathFinder.find_spec fs self fullname).2 = Return (Some spec) →
  plain_name x →
  let dir := os_path.join (ExternalPathFinder.base_path self) [root_of self fullname] in
  let qualified := whole_prefix (loader spec) +:+ x in
  (os_path_isdir fs' (os_path.join dir [x]) = false →
   os_path_exists fs' (os_path.join dir [x +:+ ".py"]) = true →
   get_filename fs' (loader spec) qualified = Return (os_path.join dir [x +:+ ".py"]))
  ∧ (os_path_isdir fs' (os_path.join dir [x]) = true →
     os_path_exists fs' (os_path.join dir [x; "__init__.py"]) = true →
     get_filename fs' (loader spec) qualified
     = Return (os_path.join dir [x; "__init__.py"])).
Proof.
  intros Hspec Hx dir qualified.
  destruct (spec_loader_fields _ _ _ _ Hspec) as (_ & s & -> & _).
  assert (os_path.join (ExternalPathFinder.base_path self)
            (Py.split dot
               (Py.drop (String.length (ExternalPathFinder.prefix self)) qualified))
          = os_path.join dir [x]) as Hcand.
  { unfold qualified. cbn [loader init whole_prefix].
    rewrite !app_assoc_str, str_drop_app_length.
    change ("." +:+ x) with (String dot x).
    rewrite split_app_plain by apply root_of_plain. by rewrite split_plain. }
  unfold get_filename. cbn [loader init ext_prefix base_path]. rewrite Hcand.
  split; intros Hdir Hex; rewrite Hdir.
  - unfold os_path.join in *. cbn [fold_left] in *. rewrite join2_app_py in *.
    by rewrite Hex.
  - unfold os_path.join in *. cbn [fold_left] in *. by rewrite Hex, Hex.
Qed.

Lemma qualified_name_located_witness :
  get_filename (fixture_disk fixture_source)
    (PrefixedImportSourceLoader.init fixture_locals "root_external."
       "root_external.some_package." "/project/root_external" true)
    "root_external.some_package.main"
  = Return "/project/root_external/some_package/main.py".
Proof.
  edestruct (qualified_name_located (fixture_disk fixture_source)
               (fixture_disk fixture_source) fixture_finder
               "root_external.some_package" "main") as [H _];
    [reflexivity | reflexivity |].
  etrans; [|apply H; reflexivity]. reflexivity.
Defined.

(** X6. A path returned by [get_filename] exists on the disk, and it either
    ends with [.py], or it is a directory without [__init__.py] followed by
    a separator, which does not end with [.py]. *)
Theorem get_filename_returns (fs : FileSystem) (self : t) (fullname path : string) :
  get_filename fs self fullname = Return path →
  os_path_exists fs path = true
  ∧ (Py.endswith path ".py" = true
     ∨ ∃ candidate,
         path = candidate +:+ "/"
         ∧ os_path_isdir fs candidate = true
         ∧ os_path_exists fs (os_path.join candidate ["__init__.py"]) = false
         ∧ Py.endswith path ".py" = false).
Proof.
  unfold get_filename.
  set (candidate := os_path.join (base_path self) _).
  destruct (os_path_isdir fs candidate) eqn:Hdir.
  - destruct (os_path_exists fs (os_path.join candidate ["__init__.py"])) eqn:Hinit.
    + rewrite Hinit. cbn [negb]. intros [= <-]. split; [done|]. left. apply join_init_py.
    + destruct (os_path_exists fs (candidate +:+ "/")) eqn:Hex; [|done].
      cbn [negb]. intros [= <-]. split; [done|]. right. exists candidate.
      split_and!; try done. apply endswith_slash_not_py.
  - destruct (os_path_exists fs (candidate +:+ ".py")) eqn:Hex; [|done].
    cbn [negb]. intros [= <-]. split; [done|]. left. apply endswith_app.
Qed.

Lemma get_filename_returns_witness :
  os_path_exists (fixture_disk fixture_source)
    "/project/root_external/some_package/" = true
  ∧ Py.endswith "/project/root_external/some_package/" ".py" = false.
Proof.
  destruct (get_filename_returns (fixture_disk fixture_source) fixture_loader
              "root_external.some_package" "/project/root_external/some_package/")
    as [Hex [Hpy|(c & _ & _ & _ & Hpy)]]; [reflexivity | | ].
  - vm_compute in Hpy. discriminate Hpy.
  - split; [exact Hex | exact Hpy].
Defined.

(** X7. A directory without [__init__.py] is located at the directory
    followed by a separator, and loading that path gives the empty source
    without reading, parsing or writing anything. *)
Theorem markerless_package_empty (parse : string → Result RedBaron) (fs fs' : FileSystem)
    (self self' : t) (fullname : string) :
  let candidate :=
    os_path.join (base_path self)
      (Py.split dot (Py.drop (String.length (ext_prefix self)) fullname)) in
  os_path_isdir fs candidate = true →
  os_path_exists fs (os_path.join candidate ["__init__.py"]) = false →
  os_path_exists fs (candidate +:+ "/") = true →
  get_filename fs self fullname = Return (candidate +:+ "/")
  ∧ get_data parse fs' self' (candidate +:+ "/") = ([], Return "").
Proof.
  intros candidate Hdir Hinit Hex. split.
  - unfold get_filename. fold candidate. by rewrite Hdir, Hinit, Hex.
  - unfold get_data. by rewrite endswith_slash_not_py.
Qed.

Lemma markerless_package_empty_witness :
  get_filename (fixture_disk fixture_source) fixture_loader "root_external.some_package"
  = Return "/project/root_external/some_package/"
  ∧ get_data Baron.parse empty_disk fixture_loader "/project/root_external/some_package/"
    = ([], Return "").
Proof.
  apply (markerless_package_empty Baron.parse (fixture_disk fixture_source) empty_disk
           fixture_loader fixture_loader "root_external.some_package"); reflexivity.
Defined.

(** X8. Every write that [get_data] carries out is the single write, to
    the path it was asked for, of the text it returns, by a loader in
    rewrite mode after a change was marked.  A loader that is not in
    rewrite mode carries out none and never opens the file for writing: its
    result is the same on any disk that reads the same at that path. *)
Theorem get_data_write_guarded (parse : string → Result RedBaron) (fs : FileSystem)
    (self : t) (path : string) :
  (∀ p d,
     Write p d ∈ (get_data parse fs self path).1 →
     p = path
     ∧ (get_data parse fs self path).1 = [Write path d]
     ∧ (get_data parse fs self path).2 = Return d
     ∧ rewrite self = true
     ∧ Py.endswith path ".py" = true
     ∧ ∃ source, open_read fs path = Return source
                 ∧ transform_source parse self source = Return (d, true))
  ∧ (rewrite self = false →
     (get_data parse fs self path).1 = []
     ∧ ∀ fs', open_read fs' path = open_read fs path →
              get_data parse fs' self path = get_data parse fs self path).
Proof.
  split.
  - intros p d. unfold get_data.
    destruct (Py.endswith path ".py") eqn:Hpy; cbn [negb]; [|by intros ?%elem_of_nil].
    destruct (open_read fs path) as [source|e] eqn:Hread; [|by intros ?%elem_of_nil].
    destruct (transform_source parse self source) as [[code changed]|e] eqn:Htr;
      [|by intros ?%elem_of_nil].
    destruct (rewrite self) eqn:Hrw; [|by intros ?%elem_of_nil].
    destruct changed; cbn [andb]; [|by intros ?%elem_of_nil].
    destruct (open_write fs path) as [[]|e]; [|by intros ?%elem_of_nil].
    cbn [fst snd]. intros [= <- <-]%list_elem_of_singleton.
    split_and!; try done. by exists source.
  - intros Hrw. unfold get_data. rewrite Hrw. cbn [andb]. split.
    + destruct (negb _); [done|]. destruct (open_read fs path); [|done].
      by destruct (transform_source parse self _) as [[]|].
    + by intros fs' ->.
Qed.

(** X9. A failure to read the file or to parse its text is the result of
    [get_data] as it is, with nothing written: the error is not turned
    into an empty source. *)
Theorem get_data_propagates (parse : string → Result RedBaron) (fs : FileSystem)
    (self : t) (path : string) (e : Exception) :
  Py.endswith path ".py" = true →
  open_read fs path = Raise e
  ∨ (∃ source, open_read fs path = Return source ∧ parse source = Raise e) →
  get_data parse fs self path = ([], Raise e).
Proof.
  intros Hpy [Hread|(source & Hread & Hparse)]; unfold get_data, transform_source;
    rewrite Hpy, Hread; cbn [negb]; [done|].
  by rewrite Hparse.
Qed.

Lemma get_data_propagates_witness :
  get_data Baron.parse empty_disk fixture_loader
    "/project/root_external/some_package/main.py"
  = ([], Raise FileNotFoundError).
Proof.
  apply (get_data_propagates Baron.parse empty_disk fixture_loader
           "/project/root_external/some_package/main.py" FileNotFoundError);
    [reflexivity|]. left. reflexivity.
Defined.

(** X10. [get_filename] does not look at the prefix of the name, only at
    its length: a name with any other text of the same length in front is
    located at the same place. *)
Theorem get_filename_prefix_length (fs : FileSystem) (self : t) (other rest : string) :
  String.length other = String.length (ext_prefix self) →
  get_filename fs self (other +:+ rest) = get_filename fs self (ext_prefix self +:+ rest).
Proof.
  intros Hlen. unfold get_filename.
  rewrite str_drop_app_length. rewrite <- Hlen. by rewrite str_drop_app_length.
Qed.

Lemma get_filename_prefix_length_witness :
  get_filename (fixture_disk fixture_source) fixture_loader "some_other_ns.some_package.main"
  = Return "/project/root_external/some_package/main.py".
Proof.
  etrans; [apply (get_filename_prefix_length (fixture_disk fixture_source) fixture_loader
                    "some_other_ns." "some_package.main"); reflexivity|].
  reflexivity.
Defined.

End Loading.

(** ** The shape of a rewritten file *)

Section Shape.

Import PrefixedImportSourceLoader.

Lemma spec_rewrite_target_length (L : gset string) (W : string) (d : DottedAsNameNode) :
  1 ≤ length (spec_rewrite_target L W d) ≤ 2.
Proof.
  unfold spec_rewrite_target.
  destruct (decide _); [destruct (String.eqb _ _); [destruct (Nat.eqb _ _)|]|];
    simpl; lia.
Qed.

Lemma flat_map_rewrite_length (L : gset string) (W : string)
    (items : list DottedAsNameNode) :
  length items ≤ length (flat_map (spec_rewrite_target L W) items) ≤ 2 * length items.
Proof.
  induction items as [|d items IH]; [simpl; lia|].
  cbn [flat_map]. rewrite length_app. pose proof (spec_rewrite_target_length L W d).
  simpl. lia.
Qed.

Lemma lookup_map {A B} (f : A → B) (l : list A) (i : nat) :
  map f l !! i = f <$> (l !! i).
Proof. revert i. induction l as [|x l IH]; intros [|i]; simpl; auto. Qed.

(** X11. A file that the two loops have rewritten has as many nodes as the
    parsed one, in the same places: a node that is no import statement is
    the same node; a plain import is a plain import with at least as many
    targets and at most twice as many; a from-import is a from-import of
    the same names with the same later components of its module path. *)
Theorem transform_keeps_structure (self : t) (ast ast' : RedBaron) (changed : bool) :
  transform self ast = Return (ast', changed) →
  length ast' = length ast
  ∧ ∀ i n, ast !! i = Some n →
      match n with
      | OtherNode text => ast' !! i = Some (OtherNode text)
      | ImportNode items =>
          ∃ items', ast' !! i = Some (ImportNode items')
                    ∧ length items ≤ length items' ≤ 2 * length items
      | FromImportNode v targets =>
          ∃ v', ast' !! i = Some (FromImportNode v' targets) ∧ names v' = names v
      end.
Proof.
  rewrite transform_map. intros [= <- _]. split; [by rewrite length_map|].
  intros i n Hn. unfold RedBaron in *.
  pose proof (lookup_map (rewrite_node (local_globals self) (whole_prefix self)) ast i)
    as Hm.
  rewrite Hn in Hm. cbn [fmap option_fmap option_map] in Hm.
  destruct n as [items|v targets|text]; unfold rewrite_node in Hm;
    cbn [rewrite_import_node rewrite_from_node] in Hm.
  - eexists. split; [exact Hm|]. apply flat_map_rewrite_length.
  - destruct (decide _); by eexists.
  - done.
Qed.

Lemma transform_keeps_structure_witness :
  length [OtherNode "x = 1";
          ImportNode [bare "os";
                      {| value := {| name0 := "root_external";
                                     names := ["some_package"; "submodule"] |};
                         target := "submodule" |};
                      bare "sys"]]
  = length [OtherNode "x = 1"; ImportNode [bare "os"; bare "submodule"; bare "sys"]].
Proof.
  apply (transform_keeps_structure fixture_loader
           [OtherNode "x = 1"; ImportNode [bare "os"; bare "submodule"; bare "sys"]]
           [OtherNode "x = 1";
            ImportNode [bare "os";
                        {| value := {| name0 := "root_external";
                                       names := ["some_package"; "submodule"] |};
                           target := "submodule" |};
                        bare "sys"]] true).
  reflexivity.
Defined.

(** X12. Statements are rewritten independently: the transformation of two
    pieces of a file put together is the two transformations put together,
    and the file is marked as changed when one of the pieces is. *)
Theorem transform_app (self : t) (ast1 ast2 : RedBaron) :
  ∃ ast1' ast2' c1 c2,
    transform self ast1 = Return (ast1', c1)
    ∧ transform self ast2 = Return (ast2', c2)
    ∧ transform self (ast1 ++ ast2) = Return (ast1' ++ ast2', c1 || c2).
Proof.
  eexists _, _, _, _. rewrite !transform_map. split_and!; [done|done|].
  by rewrite map_app, existsb_app.
Qed.

Lemma node_changes_false (L : gset string) (n : Node) :
  node_changes L n = false → non_local_node L n.
Proof.
  destruct n as [items|v targets|text]; unfold node_changes; simpl.
  - rewrite orb_false_r. induction items as [|d items IH]; [by constructor|].
    cbn [existsb]. intros [Hd Hrest]%orb_false_iff.
    apply Forall_cons. split; [|by apply IH].
    by apply bool_decide_eq_false in Hd.
  - by intros ?%bool_decide_eq_false.
  - done.
Qed.

Lemma spec_rewrite_target_fixed (L : gset string) (W : string) (d : DottedAsNameNode) :
  W ≠ "" → spec_rewrite_target L W d = [d] → name0 (value d) ∉ L.
Proof.
  intros HW. unfold spec_rewrite_target.
  destruct (decide (name0 (value d) ∈ L)) as [Hin|Hout]; [|done].
  destruct d as [[n0 ns] t]. cbn [value target name0 len names].
  destruct (String.eqb_spec t "") as [->|Ht].
  - destruct ns as [|n1 ns]; cbn [length Nat.eqb]; [|by intros [=]].
    unfold synthetic, dotted_as_name. cbn [value name0]. intros [= Hv ->].
    exfalso. apply HW. rewrite app_empty_r in Hv.
    pose proof (dumps_dotted_of_string W) as HD. rewrite Hv in HD. by rewrite <- HD.
  - unfold qualified, set_value0, set_name0. cbn [value name0 names target].
    intros [= Hn]. exfalso. by apply HW, (app_eq_self _ n0).
Qed.

Lemma flat_map_rewrite_fixed (L : gset string) (W : string)
    (items : list DottedAsNameNode) :
  W ≠ "" → flat_map (spec_rewrite_target L W) items = items →
  Forall (fun d => name0 (value d) ∉ L) items.
Proof.
  intros HW. induction items as [|d items IH]; [by constructor|].
  cbn [flat_map]. intros H.
  pose proof (spec_rewrite_target_length L W d) as Hd.
  pose proof (flat_map_rewrite_length L W items) as Hrest.
  assert (length (spec_rewrite_target L W d ++ flat_map (spec_rewrite_target L W) items)
          = S (length items)) as Hlen by by rewrite H.
  rewrite length_app in Hlen.
  destruct (spec_rewrite_target L W d) as [|y [|z l]] eqn:E; simpl in Hd, Hlen; try lia.
  simpl in H. injection H as Hy Hitems. subst y.
  apply Forall_cons. split; [by apply (spec_rewrite_target_fixed L W)|by apply IH].
Qed.

Lemma rewrite_node_fixed (L : gset string) (W : string) (n : Node) :
  W ≠ "" → rewrite_node L W n = n → non_local_node L n.
Proof.
  intros HW. destruct n as [items|v targets|text]; unfold rewrite_node;
    cbn [rewrite_import_node rewrite_from_node non_local_node]; [| |done].
  - intros [= H]. by apply (flat_map_rewrite_fixed L W).
  - destruct (decide (name0 v ∈ L)) as [Hin|Hout]; [|done].
    destruct v as [n0 ns]. unfold set_name0. cbn [name0 names].
    intros [= Hn]. exfalso. by apply HW, (app_eq_self _ n0).
Qed.

(** X13. The changed mark is exact: with a whole prefix that is not empty,
    the transformation reports no change exactly when the tree it returns
    is the tree it was given. *)
Theorem changed_iff_tree_differs (self : t) (ast ast' : RedBaron) (changed : bool) :
  whole_prefix self ≠ "" →
  transform self ast = Return (ast', changed) →
  (changed = false ↔ ast' = ast).
Proof.
  intros HW Htr. rewrite transform_map in Htr. injection Htr as Hast Hch.
  subst ast' changed.
  assert (Forall (non_local_node (local_globals self)) ast
          → map (rewrite_node (local_globals self) (whole_prefix self)) ast = ast
            ∧ existsb (node_changes (local_globals self)) ast = false) as Hfwd.
  { intros Hall. pose proof (transform_non_local self ast Hall) as H.
    rewrite transform_map in H. by injection H as H1 H2. }
  split.
  - intros Hfalse. apply Hfwd.
    clear Hfwd. induction ast as [|n ast IH]; [by constructor|].
    cbn [existsb] in Hfalse. apply orb_false_iff in Hfalse as [Hn Hrest].
    apply Forall_cons. split; [by apply node_changes_false|by apply IH].
  - intros Hsame. apply Hfwd. clear Hfwd.
    induction ast as [|n ast IH]; [by constructor|].
    cbn [map] in Hsame. injection Hsame as Hn Hrest.
    apply Forall_cons. split; [by apply (rewrite_node_fixed _ (whole_prefix self))|].
    by apply IH.
Qed.

Lemma changed_iff_tree_differs_witness :
  false = false
  ↔ [ImportNode [bare "os"]; OtherNode "x = 1"]
    = [ImportNode [bare "os"]; OtherNode "x = 1"].
Proof.
  apply (changed_iff_tree_differs fixture_loader); [discriminate | reflexivity].
Defined.

End Shape.

(** ** From the listing to the rewritten import *)

Section Pipeline.

Import ExternalPathFinder.

(** X14. Registered with a bare file name ending in [.py], a finder has the
    empty base directory, and the directory it lists for a root is the root
    itself, relative to the working directory. *)
Theorem init_bare_filename (name path : string) (rewrite : bool) :
  Py.contains slash path = false →
  Py.endswith path ".py" = true →
  let self := init name path rewrite in
  base_path self = "" ∧ ∀ r, os_path.join (base_path self) [r] = r.
Proof.
  intros Hslash Hpy self.
  assert (base_path self = "") as Hbase.
  { cbn [self init base_path]. rewrite Hpy. unfold os_path.dirname.
    by rewrite head_of_no_slash. }
  split; [done|]. intros r. rewrite Hbase. unfold os_path.join, os_path.join2.
  cbn [fold_left]. by destruct (Py.startswith r "/").
Qed.

Lemma init_bare_filename_witness :
  base_path (init "ns" "package.py" false) = ""
  ∧ os_path.join (base_path (init "ns" "package.py" false)) ["models"] = "models".
Proof.
  destruct (init_bare_filename "ns" "package.py" false) as [H1 H2];
    [reflexivity | reflexivity |].
  split; [exact H1 | exact (H2 "models")].
Defined.

(** X15. When the first request for a root lists a file [x.py] that is not
    a directory, the loader it returns knows [x] as a local name, and a bare
    [import x] in a file of that root becomes the single target that imports
    the prefix, the root and [x] under the name [x], with the file marked as
    changed. *)
Theorem listed_module_import_rewritten (fs : FileSystem) (self : t)
    (fullname x : string) (items : list string) :
  let r := root_of self fullname in
  let dir := os_path.join (base_path self) [r] in
  Py.startswith fullname (prefix self) = true →
  local_submodules self !! r = None →
  os_listdir fs dir = Return items →
  (x +:+ ".py") ∈ items →
  os_path_isdir fs (os_path.join dir [x +:+ ".py"]) = false →
  ∃ spec,
    (find_spec fs self fullname).2 = Return (Some spec)
    ∧ x ∈ PrefixedImportSourceLoader.local_globals (loader spec)
    ∧ PrefixedImportSourceLoader.transform (loader spec)
        [ImportNode [{| value := {| name0 := x; names := [] |}; target := "" |}]]
      = Return
          ([ImportNode
              [{| value := dotted_of_string (prefix self +:+ r +:+ "." +:+ x);
                  target := x |}]], true)
    ∧ dumps_dotted (dotted_of_string (prefix self +:+ r +:+ "." +:+ x))
      = prefix self +:+ r +:+ "." +:+ x.
Proof.
  intros r dir Hpre Hr Hlist Hitem Hdir.
  assert (under self r fullname = true) as Hu by (apply under_true; by split).
  rewrite (find_spec_uncached _ _ _ _ Hu Hr). cbn zeta. fold dir. rewrite Hlist.
  eexists. split; [done|].
  assert (x ∈ local_names fs dir items) as Hx.
  { unfold local_names. rewrite elem_of_list_to_set, list_elem_of_omap.
    exists (x +:+ ".py"). split; [done|].
    by rewrite Hdir, endswith_app, drop_last3_py. }
  cbn [make_spec loader PrefixedImportSourceLoader.init
    PrefixedImportSourceLoader.local_globals]. split; [done|].
  split; [|apply dumps_dotted_of_string].
  rewrite transform_map. cbn [map existsb]. unfold rewrite_node, node_changes.
  cbn [rewrite_import_node rewrite_from_node import_changes from_changes flat_map existsb
    PrefixedImportSourceLoader.local_globals PrefixedImportSourceLoader.whole_prefix
    set_local_submodules prefix].
  unfold spec_rewrite_target, is_local. cbn [value name0 names target len length].
  rewrite decide_True, bool_decide_eq_true_2 by done.
  cbn [String.eqb Nat.eqb app orb]. unfold synthetic, dotted_as_name.
  cbn [value name0 len names length Nat.eqb PrefixedImportSourceLoader.init
    PrefixedImportSourceLoader.whole_prefix].
  by rewrite !app_assoc_str.
Qed.

Lemma listed_module_import_rewritten_witness :
  ∃ spec,
    (find_spec (fixture_disk fixture_source) fixture_finder
       "root_external.some_package.main").2 = Return (Some spec)
    ∧ PrefixedImportSourceLoader.transform (loader spec) [ImportNode [bare "submodule"]]
      = Return
          ([ImportNode
              [{| value := {| name0 := "root_external";
                              names := ["some_package"; "submodule"] |};
                  target := "submodule" |}]], true).
Proof.
  destruct (listed_module_import_rewritten (fixture_disk fixture_source) fixture_finder
              "root_external.some_package.main" "submodule"
              ["main.py"; "submodule.py"; "other_submodule"; "README"])
    as (spec & Hspec & _ & Htr & _);
    [reflexivity | reflexivity | reflexivity | | reflexivity |].
  - apply list_elem_of_further, list_elem_of_here.
  - exists spec. split; [exact Hspec | exact Htr].
Defined.

Lemma make_spec_ext (self self' : t) (fullname r : string) (s : gset string) :
  prefix self' = prefix self → base_path self' = base_path self →
  rewrite self' = rewrite self →
  make_spec self' fullname r s = make_spec self fullname r s.
Proof. intros H1 H2 H3. unfold make_spec. by rewrite H1, H2, H3. Qed.

Lemma run_cached_spec calls : ∀ self r (s : gset string),
  local_submodules self !! r = Some s →
  Forall (fun q => under self r (req_fullname q) = true →
                   req_events q = []
                   ∧ req_result q = Return (Some (make_spec self (req_fullname q) r s)))
         (run self calls).2.
Proof.
  induction calls as [|[fs fullname] calls IH]; intros self r s Hr.
  - by apply Forall_nil.
  - rewrite run_cons. apply Forall_cons. split.
    + cbn [req_fullname]. intros Hu. by rewrite (find_spec_cached _ _ _ _ _ Hu Hr).
    + eapply Forall_impl; [apply (IH _ r s); by apply find_spec_keeps|].
      intros q Hq Hu.
      destruct (find_spec_step fs self fullname) as (_ & Hrw & _).
      rewrite <- (make_spec_ext self (find_spec fs self fullname).1.1);
        [|apply find_spec_prefix|apply find_spec_base_path|done].
      apply Hq. by rewrite (under_prefix self) by apply find_spec_prefix.
Qed.

(** X16. Once a request for a root has returned a specification, every
    later request for that root returns one too, without listing, whatever
    the disk holds by then: for its own full name, marked as a package, and
    with a loader equal to the first one. *)
Theorem resolved_root_stays_resolved (self : t) (calls : list (FileSystem * string))
    (r : string) (i j : nat) (qi qj : Request) (si : ModuleSpec) :
  i < j →
  (run self calls).2 !! i = Some qi →
  (run self calls).2 !! j = Some qj →
  under self r (req_fullname qi) = true →
  under self r (req_fullname qj) = true →
  req_result qi = Return (Some si) →
  req_events qj = []
  ∧ ∃ sj, req_result qj = Return (Some sj)
          ∧ spec_name sj = req_fullname qj
          ∧ is_package sj = true
          ∧ loader sj = loader si.
Proof.
  revert self i j. induction calls as [|[fs fullname] calls IH];
    intros self i j Hij Hi Hj Hui Huj Hres; [done|].
  rewrite run_cons in Hi, Hj. destruct j as [|j]; [lia|]. cbn in Hj.
  destruct (find_spec_step fs self fullname) as (_ & Hrw & _).
  pose proof (find_spec_prefix fs self fullname) as Hp.
  pose proof (find_spec_base_path fs self fullname) as Hb.
  destruct i as [|i].
  - cbn in Hi. injection Hi as <-. cbn [req_fullname req_result] in Hui, Hres.
    apply under_true in Hui as Hui'. destruct Hui' as [_ Hroot].
    destruct (spec_loader_fields _ _ _ _ Hres) as (_ & s & -> & Hs).
    rewrite Hroot in Hs.
    pose proof (run_cached_spec calls _ r s Hs) as Hall.
    rewrite Forall_lookup in Hall. destruct (Hall j qj Hj) as [Hev Hrj].
    { by rewrite (under_prefix self). }
    split; [done|]. eexists. split; [exact Hrj|].
    unfold make_spec. cbn [spec_name is_package loader]. rewrite Hp, Hb, Hrw, Hroot.
    by split_and!.
  - cbn in Hi. apply (IH (find_spec fs self fullname).1.1 i j); try done; [lia| |];
      by rewrite (under_prefix self).
Qed.

Lemma resolved_root_stays_resolved_witness :
  ∃ q1 q2 s1 s2,
    (run fixture_finder fixture_calls).2 !! 1 = Some q1
    ∧ (run fixture_finder fixture_calls).2 !! 2 = Some q2
    ∧ req_result q1 = Return (Some s1)
    ∧ req_result q2 = Return (Some s2)
    ∧ loader s2 = loader s1.
Proof.
  eexists _, _, _. 
  edestruct (resolved_root_stays_resolved fixture_finder fixture_calls "some_package" 1 2)
    as (_ & s2 & H2 & _ & _ & Hl);
    [lia | reflexivity | reflexivity | reflexivity | reflexivity | reflexivity |].
  exists s2. split; [reflexivity|]. split; [reflexivity|]. split; [reflexivity|].
  split; [exact H2 | exact Hl].
Defined.

End Pipeline.

(** ** The whole prefix of a finder's loaders, and the order of the loops *)

Section Prefixes.

Import ExternalPathFinder.

Lemma hd_split_app_dot (p q : string) :
  hd "" (Py.split dot (p +:+ String dot q)) = hd "" (Py.split dot p).
Proof.
  induction p as [|a p IH].
  - rewrite app_empty_l, split_cons. by rewrite Ascii.eqb_refl.
  - rewrite app_cons, !split_cons. destruct (Ascii.eqb a dot); [done|].
    simpl. by rewrite IH.
Qed.

Lemma run_prefix calls : ∀ self, prefix (run self calls).1 = prefix self.
Proof.
  induction calls as [|[fs fullname] calls IH]; intros self; [done|].
  by rewrite run_cons_finder, IH, find_spec_prefix.
Qed.

(** X17. For a finder made by [__init__] for a namespace name, after any
    requests, the whole prefix of every loader it returns is the name, a
    dot, the root and a dot: it holds a dot, and its first dotted component
    is the first dotted component of the namespace name. *)
Theorem whole_prefix_of_registered (fs : FileSystem) (ns path : string) (rw : bool)
    (calls : list (FileSystem * string)) (fullname : string) (spec : ModuleSpec) :
  let self := (run (init ns path rw) calls).1 in
  (find_spec fs self fullname).2 = Return (Some spec) →
  let W := PrefixedImportSourceLoader.whole_prefix (loader spec) in
  W = ns +:+ "." +:+ root_of self fullname +:+ "."
  ∧ Py.contains dot W = true
  ∧ hd "" (Py.split dot W) = hd "" (Py.split dot ns).
Proof.
  intros self Hspec W.
  destruct (spec_loader_fields _ _ _ _ Hspec) as (_ & s & -> & _).
  assert (W = ns +:+ String dot (root_of self fullname +:+ ".")) as HW.
  { unfold W. cbn [loader PrefixedImportSourceLoader.init
      PrefixedImportSourceLoader.whole_prefix].
    unfold self at 1. rewrite run_prefix. cbn [init prefix].
    by rewrite app_assoc_str. }
  split; [exact HW|]. rewrite HW. split; [apply contains_app_char|].
  apply hd_split_app_dot.
Qed.

Lemma whole_prefix_of_registered_witness :
  ∃ spec,
    (find_spec (fixture_disk fixture_source)
       (run (init "root_external" "/project/root_external/__init__.py" true)
            fixture_calls).1
       "root_external.some_package.main").2 = Return (Some spec)
    ∧ hd "" (Py.split dot (PrefixedImportSourceLoader.whole_prefix (loader spec)))
      = "root_external".
Proof.
  eexists. split; [reflexivity|].
  edestruct (whole_prefix_of_registered (fixture_disk fixture_source) "root_external"
               "/project/root_external/__init__.py" true fixture_calls
               "root_external.some_package.main") as (_ & _ & H); [reflexivity|].
  exact H.
Defined.

End Prefixes.

Section LoopOrder.

Import PrefixedImportSourceLoader.

Lemma rewrite_nodes_commute (L : gset string) (W : string) (n : Node) :
  rewrite_import_node L W (rewrite_from_node L W n) = rewrite_node L W n
  ∧ import_changes L (rewrite_from_node L W n) = import_changes L n.
Proof.
  destruct n as [items|v targets|text]; unfold rewrite_node; simpl; [done| |done].
  by destruct (decide _).
Qed.

(** X18. The order of the two loops does not matter: running the loop over
    the from-imports first and the loop over the plain imports after it
    gives the tree and the changed mark that [get_data] computes. *)
Theorem loops_commute (self : t) (ast : RedBaron) :
  import_pass self (from_import_pass self ast false).1 (from_import_pass self ast false).2
  = transform self ast.
Proof.
  rewrite transform_map, from_import_pass_map. cbn [fst snd orb].
  rewrite import_pass_map, map_map. f_equal. f_equal.
  - apply map_ext. intros n. apply rewrite_nodes_commute.
  - induction ast as [|n ast IH]; [done|]. cbn [map existsb].
    destruct (rewrite_nodes_commute (local_globals self) (whole_prefix self) n) as [_ ->].
    rewrite <- IH. unfold node_changes.
    by destruct (import_changes _ n), (from_changes _ n),
      (existsb (from_changes _) ast),
      (existsb (import_changes _)
         (map (rewrite_from_node (local_globals self) (whole_prefix self)) ast)).
Qed.

End LoopOrder.
